(** * Billy Bass assistant: provider abstraction, dispatch and configuration

    A shallow embedding of the provider layer of the Billy Bass assistant
    ([providers/kobold_provider.py], [providers/factory.py],
    [providers/voice/*.py], [core/config.py] and the dispatch loops of
    [main.py]) together with the properties its specification states.

    Conventions of the embedding:
    - a Python [str] is a [string]; the text is taken to be ASCII, so
      [str.lower], [str.strip] and [len] act character by character;
    - a Python [int] is a [Z], a [float] that is only carried around is a [Q];
    - a [dict] is a [gmap] keyed by strings, [d.get(k)] is [d !! k];
    - the process environment is a snapshot [gmap string string] and
      [os.getenv(k)] is the lookup in it;
    - network calls are the only source of nondeterminism: the backend is an
      explicit argument that gives the outcome of the call;
    - an async generator that yields finitely many dictionaries is the list
      of the chunks it yields, paired with the provider state it leaves. *)

From Stdlib Require Import ZArith QArith Ascii String DecimalString Lia.
From stdpp Require Import base list gmap strings.

Local Open Scope string_scope.
Local Open Scope Z_scope.

(** ** Python strings *)

Module PyStr.

Definition newline : ascii := "010"%char.

(** The separator ["\n"]. *)
Definition nl : string := String newline EmptyString.

(** [len(s)] as a Python integer. *)
Definition len (s : string) : Z := Z.of_nat (String.length s).

(** [str.isspace] on one ASCII character: TAB, LF, VT, FF, CR, the four
    separators FS, GS, RS, US, and the space. *)
Definition isspace (c : ascii) : bool :=
  let n := nat_of_ascii c in
  ((9 <=? n)%nat && (n <=? 13)%nat) || ((28 <=? n)%nat && (n <=? 32)%nat).

(** [str.lower] on one ASCII character. *)
Definition lower_char (c : ascii) : ascii :=
  let n := nat_of_ascii c in
  if ((65 <=? n)%nat && (n <=? 90)%nat) then ascii_of_nat (n + 32) else c.

Fixpoint lower (s : string) : string :=
  match s with
  | EmptyString => EmptyString
  | String c s' => String (lower_char c) (lower s')
  end.

Fixpoint lstrip (s : string) : string :=
  match s with
  | EmptyString => EmptyString
  | String c s' => if isspace c then lstrip s' else s
  end.

Fixpoint rstrip (s : string) : string :=
  match s with
  | EmptyString => EmptyString
  | String c s' =>
      match rstrip s' with
      | EmptyString => if isspace c then EmptyString else String c EmptyString
      | r => String c r
      end
  end.

(** [s.strip()] *)
Definition strip (s : string) : string := rstrip (lstrip s).

(** Empty, or made of whitespace only. *)
Fixpoint blank (s : string) : bool :=
  match s with
  | EmptyString => true
  | String c s' => isspace c && blank s'
  end.

(** Truth value of a string: non-empty. *)
Definition truthy (s : string) : bool :=
  match s with EmptyString => false | _ => true end.

(** [s.startswith(p)] *)
Fixpoint startswith (p s : string) : bool :=
  match p, s with
  | EmptyString, _ => true
  | String a p', String b s' => if Ascii.eqb a b then startswith p' s' else false
  | String _ _, EmptyString => false
  end.

(** [p in s] *)
Fixpoint contains (p s : string) : bool :=
  startswith p s ||
  match s with
  | EmptyString => false
  | String _ s' => contains p s'
  end.

(** [s[n:]] for a non-negative literal [n]. *)
Fixpoint slice_from (n : nat) (s : string) : string :=
  match n, s with
  | O, _ => s
  | S n', String _ s' => slice_from n' s'
  | S _, EmptyString => EmptyString
  end.

(** [sep.join(parts)] *)
Definition join (sep : string) (parts : list string) : string :=
  String.concat sep parts.

(** [s.split('\n')]: never empty, [''.split('\n') = ['']]. *)
Fixpoint split_lines (s : string) : list string :=
  match s with
  | EmptyString => [EmptyString]
  | String c s' =>
      if Ascii.eqb c newline then EmptyString :: split_lines s'
      else match split_lines s' with
           | [] => [String c EmptyString]
           | l :: ls => String c l :: ls
           end
  end.

(** No line feed occurs in [s]. *)
Fixpoint single_line (s : string) : bool :=
  match s with
  | EmptyString => true
  | String c s' => negb (Ascii.eqb c newline) && single_line s'
  end.

(** [str(n)] for an integer. *)
Definition of_int (n : Z) : string := NilZero.string_of_int (Z.to_int n).

(** [repr] of a string without quotes or escapes, as in the registries. *)
Definition repr (s : string) : string := "'" +:+ s +:+ "'".

(** [str] of a list of such strings: [['a', 'b']]. *)
Definition str_of_list (l : list string) : string :=
  "[" +:+ join ", " (repr <$> l) +:+ "]".

End PyStr.

(** ** Values carried by dictionaries *)

Inductive PyVal :=
| VNone
| VStr (s : string)
| VInt (n : Z)
| VFloat (q : Q).

(** [bool(v)] *)
Definition val_truthy (v : PyVal) : bool :=
  match v with
  | VNone => false
  | VStr s => PyStr.truthy s
  | VInt n => negb (n =? 0)
  | VFloat q => negb (Qeq_bool q 0)
  end.

(** [d.get(k)]: [None] for a missing key. *)
Definition dict_get (d : gmap string PyVal) (k : string) : PyVal :=
  default VNone (d !! k).

(** [d.get(k, v)]: the default is used for a missing key only. *)
Definition dict_get_default (d : gmap string PyVal) (k : string) (v : PyVal) : PyVal :=
  default v (d !! k).

(** [f"{v}"]; the text of a float is not modelled. *)
Definition py_str (v : PyVal) : option string :=
  match v with
  | VNone => Some "None"
  | VStr s => Some s
  | VInt n => Some (PyStr.of_int n)
  | VFloat _ => None
  end.

(** An optional text as a dictionary value. *)
Definition of_opt (o : option string) : PyVal :=
  match o with
  | Some s => VStr s
  | None => VNone
  end.

(** ** Response chunks ([providers/base.py], the dictionaries the providers yield)

    Every provider yields dictionaries with a ["type"] key whose value is
    ["text_delta"], ["text_complete"] or ["error"]; the two text kinds carry
    ["text"] and ["done"], the error kind carries ["message"] only. *)

Inductive ResponseChunk :=
| text_delta (text : string) (done : bool)
| text_complete (text : string) (done : bool)
| error_chunk (message : string).

(** [chunk.get("done", False)] *)
Definition chunk_done (c : ResponseChunk) : bool :=
  match c with
  | text_delta _ d | text_complete _ d => d
  | error_chunk _ => false
  end.

Definition is_error (c : ResponseChunk) : bool :=
  match c with error_chunk _ => true | _ => false end.

(** A chunk that ends a turn: an error, or one flagged [done]. *)
Definition terminal (c : ResponseChunk) : bool := is_error c || chunk_done c.

Inductive ModelType := REALTIME | STREAMING | REQUEST_RESPONSE.

(** ** The Kobold provider ([providers/kobold_provider.py]) *)

Module Kobold.

Record KoboldProvider := {
  api_url : string;
  temperature : Q;
  max_tokens : Z;
  max_context : Z;
  conversation_history : list string
}.

Definition with_history (p : KoboldProvider) (h : list string) : KoboldProvider :=
  {| api_url := api_url p; temperature := temperature p;
     max_tokens := max_tokens p; max_context := max_context p;
     conversation_history := h |}.

(** The JSON body posted to [/api/v1/generate]. *)
Record Payload := {
  prompt : string;
  max_length : Z;
  payload_temperature : Q;
  rep_pen : Q;
  top_p : Q;
  top_k : Z;
  sampler_order : list Z
}.

(** The decoded reply: [data['results']] when the key is there, each
    entry with its ['text'] when that key is there. *)
Record ReplyData := { results : option (list (option string)) }.

(** What the HTTP exchange gives. An awaited read that raises is [inl]
    of the text of the exception. *)
Record Response := {
  status : Z;
  json : string + ReplyData;
  text : string + string
}.

(** [inl e]: [session.post] raised [e]. *)
Definition BackendOutcome : Type := string + Response.

Definition start_session (p : KoboldProvider) : KoboldProvider * bool :=
  (with_history p [], true).

Definition send_message (p : KoboldProvider) (message : string) : KoboldProvider :=
  with_history p (conversation_history p ++ ["User: " +:+ message]).

(** ["\n".join(self.conversation_history) + "\nAssistant:"] *)
Definition serialize (history : list string) : string :=
  PyStr.join PyStr.nl history +:+ String PyStr.newline "Assistant:".

Definition over_budget (max : Z) (s : string) : bool := PyStr.len s >? max.

(** The loop [while len('\n'.join(lines)) > max_context and len(lines) > 2:
    lines.pop(0)]; every iteration removes the head. *)
Fixpoint truncate_lines (max : Z) (lines : list string) : list string :=
  match lines with
  | [] => []
  | _ :: rest =>
      if over_budget max (PyStr.join PyStr.nl lines)
         && (Z.of_nat (length lines) >? 2)
      then truncate_lines max rest
      else lines
  end.

(** The truncation step applied to a serialized prompt. *)
Definition truncate_prompt (max : Z) (p : string) : string :=
  if over_budget max p
  then PyStr.join PyStr.nl (truncate_lines max (PyStr.split_lines p))
  else p.

(** [lines = prompt.split('\n')] for the untruncated prompt. *)
Definition prompt_lines (p : KoboldProvider) : list string :=
  PyStr.split_lines (serialize (conversation_history p)).

(** The prompt sent for the current request. *)
Definition build_prompt (p : KoboldProvider) : string :=
  truncate_prompt (max_context p) (serialize (conversation_history p)).

Definition build_payload (p : KoboldProvider) : Payload :=
  {| prompt := build_prompt p;
     max_length := max_tokens p;
     payload_temperature := temperature p;
     rep_pen := 11 # 10;
     top_p := 9 # 10;
     top_k := 40;
     sampler_order := [6; 0; 1; 2; 3; 4; 5] |}.

(** [data.get('results', [{}])[0].get('text', '')]; [inl] when the
    index raises. *)
Definition first_text (d : ReplyData) : string + string :=
  match results d with
  | None => inr EmptyString
  | Some [] => inl "list index out of range"
  | Some (entry :: _) => inr (default EmptyString entry)
  end.

Definition connection_error (e : string) : ResponseChunk :=
  error_chunk ("Connection error to Kobold server: " +:+ e).

(** The body of the [status == 200] branch once the text is read. *)
Definition complete (p : KoboldProvider) (raw : string)
  : list ResponseChunk * KoboldProvider :=
  let response_text := PyStr.strip raw in
  if PyStr.truthy response_text then
    let response_text :=
      if PyStr.startswith "Assistant:" response_text
      then PyStr.strip (PyStr.slice_from 10 response_text)
      else response_text in
    ([text_complete response_text true],
     with_history p (conversation_history p ++ ["Assistant: " +:+ response_text]))
  else ([text_complete response_text true], p).

(** [get_response_stream]: the chunks yielded and the provider afterwards.
    [backend] answers the POST of the payload. *)
Definition get_response_stream (p : KoboldProvider)
    (backend : Payload -> BackendOutcome)
  : list ResponseChunk * KoboldProvider :=
  match backend (build_payload p) with
  | inl e => ([connection_error e], p)
  | inr resp =>
      if status resp =? 200 then
        match json resp with
        | inl e => ([connection_error e], p)
        | inr data =>
            match first_text data with
            | inl e => ([connection_error e], p)
            | inr raw => complete p raw
            end
        end
      else
        match text resp with
        | inl e => ([connection_error e], p)
        | inr error_text =>
            ([error_chunk ("Kobold server error " +:+ PyStr.of_int (status resp)
                           +:+ ": " +:+ error_text)], p)
        end
  end.

Definition get_model_type (p : KoboldProvider) : ModelType := REQUEST_RESPONSE.

(** The same provider configured with another context budget. *)
Definition with_max_context (p : KoboldProvider) (max : Z) : KoboldProvider :=
  {| api_url := api_url p; temperature := temperature p;
     max_tokens := max_tokens p; max_context := max;
     conversation_history := conversation_history p |}.


(** The answer to the probe [GET {api_url}/api/v1/model]: the status, and
    the decoded body ([inl] when decoding raises, else its ['result']). *)
Record ProbeResponse := {
  probe_status : Z;
  probe_json : string + option string
}.

(** [initialize]: the four settings are read from [config], the history is
    not touched; the flag is [True] exactly when the probe answers 200 with
    a body that decodes. [backend] answers the probe of a URL, [inl] when
    the request raises. The result is [None] when a value of [config] does
    not fit the type of its field. *)
Definition initialize (p : KoboldProvider) (config : gmap string PyVal)
    (backend : string -> string + ProbeResponse) : option (KoboldProvider * bool) :=
  match dict_get_default config "api_url" (VStr "http://localhost:5000"),
        dict_get_default config "temperature" (VFloat (7 # 10)),
        dict_get_default config "max_tokens" (VInt 150),
        dict_get_default config "max_context" (VInt 2048) with
  | VStr url, VFloat t, VInt mt, VInt mc =>
      let p' := {| api_url := url; temperature := t; max_tokens := mt;
                   max_context := mc;
                   conversation_history := conversation_history p |} in
      Some (p',
            match backend (url +:+ "/api/v1/model") with
            | inl _ => false
            | inr resp =>
                if probe_status resp =? 200
                then match probe_json resp with inl _ => false | inr _ => true end
                else false
            end)
  | _, _, _, _ => None
  end.

(** The text [get_response_stream] yields and records for a reply [raw]
    that is not blank: stripped, and without one echoed ["Assistant:"]. *)
Definition reply_text (raw : string) : string :=
  let response_text := PyStr.strip raw in
  if PyStr.startswith "Assistant:" response_text
  then PyStr.strip (PyStr.slice_from 10 response_text)
  else response_text.

Definition end_session (p : KoboldProvider) : KoboldProvider := p.
End Kobold.

(** ** The OpenAI language-model provider (class [OpenAIProvider]) *)

Module OpenAI.

(** The attributes, as read from the configuration. *)
Record OpenAIProvider := {
  api_key : PyVal;
  model : PyVal;
  api_url : PyVal;
  organization : PyVal;
  project_id : PyVal
}.

(** [initialize]: the attributes, and the flag returned; [inl] when
    [self.model.lower()] raises because the model is no text. *)
Definition initialize (config : gmap string PyVal) : OpenAIProvider * (string + bool) :=
  let self := {| api_key := dict_get config "api_key";
                 model := dict_get_default config "model"
                            (VStr "gpt-4o-mini-realtime-preview");
                 api_url := dict_get config "api_url";
                 organization := dict_get config "organization";
                 project_id := dict_get config "project_id" |} in
  (self,
   if negb (val_truthy (api_key self)) then inr false
   else match model self with
        | VStr _ => inr true
        | _ => inl "object has no attribute 'lower'"
        end).

(** [is_gpt5] for a textual model. *)
Definition is_gpt5 (model : string) : bool :=
  PyStr.contains "gpt-5" (PyStr.lower model).

Definition get_model_version (model : string) : string :=
  if PyStr.contains "gpt-5" (PyStr.lower model) then "5"
  else if PyStr.contains "gpt-4" (PyStr.lower model) then "4"
  else "unknown".

(** The placeholder stream. *)
Definition get_response_stream : list ResponseChunk :=
  [text_delta
     "OpenAI provider needs integration with existing Realtime API code from main.py"
     false;
   text_delta EmptyString true].

Definition get_model_type : ModelType := REALTIME.

End OpenAI.

(** ** The environment snapshot and the configuration resolver *)

Module Env.

(** [os.getenv(k)] *)
Definition getenv (env : gmap string string) (k : string) : option string :=
  env !! k.

(** [os.getenv(k, d)] *)
Definition getenv_default (env : gmap string string) (k d : string) : string :=
  default d (env !! k).

(** Truth value of [os.getenv(k)]: set, and to a non-empty text. *)
Definition truthy (o : option string) : bool :=
  match o with
  | Some s => PyStr.truthy s
  | None => false
  end.

(** [a or b] on optional texts. *)
Definition or (a b : option string) : option string :=
  if truthy a then a else b.

Definition is_set (env : gmap string string) (k : string) : bool :=
  truthy (getenv env k).

End Env.

(** [core/config.py] *)
Module Config.
Import Env.

Record LLMConfig := {
  provider : string;
  model : string;
  api_key : option string;
  api_url : option string
}.

Definition detect_llm_provider (env : gmap string string) : string :=
  if truthy (getenv env "LLM_PROVIDER") then
    PyStr.lower (getenv_default env "LLM_PROVIDER" EmptyString)
  else if truthy (getenv env "OLLAMA_HOST") || truthy (getenv env "OLLAMA_URL")
          || truthy (getenv env "LLM_API_URL") then "ollama"
  else if truthy (getenv env "KOBOLD_URL") || truthy (getenv env "KOBOLD_HOST") then "kobold"
  else "openai".

Definition OPENAI_API_KEY (env : gmap string string) : string :=
  getenv_default env "OPENAI_API_KEY" EmptyString.

Definition OPENAI_MODEL (env : gmap string string) : string :=
  getenv_default env "OPENAI_MODEL" "gpt-4o-mini-realtime-preview".

Definition get_llm_model (env : gmap string string) (provider : string) : string :=
  if String.eqb provider "openai" then OPENAI_MODEL env
  else if String.eqb provider "ollama" then
    if truthy (getenv env "LLM_MODEL") then getenv_default env "LLM_MODEL" EmptyString
    else getenv_default env "OLLAMA_MODEL" "llama3.2:latest"
  else if String.eqb provider "kobold" then getenv_default env "LLM_MODEL" "kobold"
  else OPENAI_MODEL env.

Definition get_llm_api_key (env : gmap string string) (provider : string)
  : option string :=
  if String.eqb provider "openai" then Some (OPENAI_API_KEY env)
  else if String.eqb provider "ollama" then getenv env "OLLAMA_API_KEY"
  else if String.eqb provider "kobold" then getenv env "KOBOLD_API_KEY"
  else Some (OPENAI_API_KEY env).

Definition get_llm_api_url (env : gmap string string) (provider : string)
  : option string :=
  if String.eqb provider "openai" then None
  else if String.eqb provider "ollama" then
    if truthy (getenv env "LLM_API_URL") then getenv env "LLM_API_URL"
    else if truthy (getenv env "OLLAMA_URL") then getenv env "OLLAMA_URL"
    else if truthy (getenv env "OLLAMA_HOST") then
      let host := getenv_default env "OLLAMA_HOST" EmptyString in
      Some (if negb (PyStr.contains "://" host) then "http://" +:+ host else host)
    else Some "http://localhost:11434"
  else if String.eqb provider "kobold" then
    or (getenv env "LLM_API_URL")
       (Some (getenv_default env "KOBOLD_URL" "http://localhost:5000"))
  else None.

(** The [LLMConfig] of [load_billy_config]; its two numeric fields are
    parsed from text on their own and are left out. *)
Definition load_billy_config_llm (env : gmap string string) : LLMConfig :=
  let llm_provider := detect_llm_provider env in
  {| provider := llm_provider;
     model := get_llm_model env llm_provider;
     api_key := get_llm_api_key env llm_provider;
     api_url := get_llm_api_url env llm_provider |}.


Record VoiceConfig := {
  voice_provider : string;
  voice : string;
  voice_api_key : option string;
  voice_api_url : option string
}.

Definition VOICE (env : gmap string string) : string :=
  getenv_default env "VOICE" "ash".

Definition detect_voice_provider (env : gmap string string) : string :=
  if truthy (getenv env "VOICE_PROVIDER") then
    PyStr.lower (getenv_default env "VOICE_PROVIDER" EmptyString)
  else if truthy (getenv env "CHATTERAI_API_KEY")
          || (truthy (getenv env "VOICE_API_URL")
              && PyStr.contains "chatter"
                   (PyStr.lower (getenv_default env "VOICE_API_URL" EmptyString)))
  then "chatterai"
  else if truthy (getenv env "XTT_API_URL") || truthy (getenv env "XTT_HOST")
          || (truthy (getenv env "VOICE_API_URL")
              && PyStr.contains "xtt"
                   (PyStr.lower (getenv_default env "VOICE_API_URL" EmptyString)))
  then "xtt"
  else "openai".

Definition get_voice_api_key (env : gmap string string) (provider : string)
  : option string :=
  if String.eqb provider "openai" then Some (OPENAI_API_KEY env)
  else if String.eqb provider "chatterai" then getenv env "CHATTERAI_API_KEY"
  else if String.eqb provider "xtt" then getenv env "XTT_API_KEY"
  else Some (OPENAI_API_KEY env).

Definition get_voice_api_url (env : gmap string string) (provider : string)
  : option string :=
  if String.eqb provider "openai" then None
  else if String.eqb provider "chatterai" then
    or (getenv env "VOICE_API_URL")
       (Some (getenv_default env "CHATTERAI_URL" "https://api.chatterai.com"))
  else if String.eqb provider "xtt" then
    or (getenv env "VOICE_API_URL")
       (or (getenv env "XTT_API_URL")
           (Some (getenv_default env "XTT_HOST" "http://localhost:8080")))
  else None.

(** The [VoiceConfig] of [load_billy_config], without the parsed speed. *)
Definition load_billy_config_voice (env : gmap string string) : VoiceConfig :=
  let provider := detect_voice_provider env in
  {| voice_provider := provider;
     voice := VOICE env;
     voice_api_key := get_voice_api_key env provider;
     voice_api_url := get_voice_api_url env provider |}.

Definition get_current_llm_provider (env : gmap string string) : string :=
  detect_llm_provider env.

Definition get_current_voice_provider (env : gmap string string) : string :=
  detect_voice_provider env.

Definition is_using_openai_llm (env : gmap string string) : bool :=
  String.eqb (get_current_llm_provider env) "openai".

Definition is_using_openai_voice (env : gmap string string) : bool :=
  String.eqb (get_current_voice_provider env) "openai".

(** [get_llm_api_key(provider) or ""] *)
Definition get_effective_api_key (env : gmap string string) : string :=
  let key := get_llm_api_key env (get_current_llm_provider env) in
  if truthy key then default EmptyString key else EmptyString.
End Config.

(** ** The provider factory ([providers/factory.py]) *)

Module Factory.

Inductive LLMClass := OpenAIProvider | OllamaProvider | KoboldProvider.
Inductive VoiceClass := OpenAIVoiceProvider | ChatterAIVoiceProvider | XTTVoiceProvider.

(** The registries are dictionaries whose key order shows in the error
    text, so they are kept as association lists in insertion order. *)
Definition LLM_PROVIDERS : list (string * LLMClass) :=
  [("openai", OpenAIProvider); ("ollama", OllamaProvider); ("kobold", KoboldProvider)].

Definition VOICE_PROVIDERS : list (string * VoiceClass) :=
  [("openai", OpenAIVoiceProvider); ("chatterai", ChatterAIVoiceProvider);
   ("xtt", XTTVoiceProvider)].

Inductive PyError :=
| ValueError (msg : string)
| ConnectionError (msg : string)
| AttributeError (msg : string)
| Raised (msg : string).

(** What the factory does to provider classes, in order. *)
Inductive Event (C : Type) :=
| Instantiated (cls : C)
| Initialized (cls : C).
Arguments Instantiated {C} cls.
Arguments Initialized {C} cls.

Section Create.
Context {C : Type}.

Definition keys (registry : list (string * C)) : list string := registry.*1.

(** [registry[name]] *)
Fixpoint registry_get (name : string) (registry : list (string * C)) : option C :=
  match registry with
  | [] => None
  | (k, cls) :: rest => if String.eqb name k then Some cls else registry_get name rest
  end.

(** [config.get('provider', 'openai').lower()] *)
Definition provider_name (config : gmap string PyVal) : PyError + string :=
  match config !! "provider" with
  | None => inr (PyStr.lower "openai")
  | Some (VStr s) => inr (PyStr.lower s)
  | Some _ => inl (AttributeError "object has no attribute 'lower'")
  end.

(** The common body of [create_llm_provider] and [create_voice_provider];
    [kind] is the word in the messages, [initialize] what the
    provider's [initialize(config)] gives: a flag, or [inl] when it
    raises. *)
Definition create (kind : string) (registry : list (string * C))
    (config : gmap string PyVal)
    (initialize : C -> gmap string PyVal -> string + bool)
  : (PyError + C) * list (Event C) :=
  match provider_name config with
  | inl e => (inl e, [])
  | inr name =>
      match registry_get name registry with
      | None =>
          (inl (ValueError ("Unknown " +:+ kind +:+ " provider '" +:+ name
                            +:+ "'. Available: "
                            +:+ PyStr.str_of_list (keys registry))), [])
      | Some provider_class =>
          match initialize provider_class config with
          | inl e => (inl (Raised e), [Instantiated provider_class; Initialized provider_class])
          | inr true => (inr provider_class,
                         [Instantiated provider_class; Initialized provider_class])
          | inr false =>
              (inl (ConnectionError ("Failed to initialize " +:+ kind
                                     +:+ " provider '" +:+ name +:+ "'")),
               [Instantiated provider_class; Initialized provider_class])
          end
      end
  end.
End Create.

Definition create_llm_provider := @create LLMClass "LLM" LLM_PROVIDERS.
Definition create_voice_provider := @create VoiceClass "Voice" VOICE_PROVIDERS.

Definition get_available_llm_providers : list string := keys LLM_PROVIDERS.
Definition get_available_voice_providers : list string := keys VOICE_PROVIDERS.


(** [validate_llm_config]; [inl] when the provider entry is no text. *)
Definition validate_llm_config (config : gmap string PyVal) : PyError + bool :=
  match provider_name config with
  | inl e => inl e
  | inr name =>
      inr (if String.eqb name "openai" then val_truthy (dict_get config "api_key")
           else if String.eqb name "ollama" then val_truthy (dict_get config "api_url")
           else if String.eqb name "kobold" then val_truthy (dict_get config "api_url")
           else false)
  end.

(** [validate_voice_config] *)
Definition validate_voice_config (config : gmap string PyVal) : PyError + bool :=
  match provider_name config with
  | inl e => inl e
  | inr name =>
      inr (if String.eqb name "openai" then val_truthy (dict_get config "api_key")
           else if String.eqb name "chatterai" || String.eqb name "xtt"
                then val_truthy (dict_get config "api_url")
           else false)
  end.
End Factory.


(** ** Voice providers ([providers/voice/*.py]) *)

Module Voice.

(** The HTTP answer to a synthesis request. *)
Record Response := {
  status : Z;
  body : list Byte.byte;
  text : string
}.

(** [raise Exception(f"<who> TTS error {status}: {error_text}")] *)
Definition tts_error (who : string) (resp : Response) : string :=
  who +:+ " TTS error " +:+ PyStr.of_int (status resp) +:+ ": " +:+ text resp.

(** The exchange shared by the three providers: the audio on status 200,
    an exception otherwise; a transport exception is raised again as it is. *)
Definition exchange {P : Type} (who : string) (payload : P)
    (backend : P -> string + Response) : string + list Byte.byte :=
  match backend payload with
  | inl e => inl e
  | inr resp => if status resp =? 200 then inr (body resp) else inl (tts_error who resp)
  end.

Record OpenAIVoiceProvider := {
  openai_api_key : option string;
  openai_api_url : string;
  openai_model : string;
  organization : option string;
  project_id : option string
}.

Record OpenAIPayload := {
  oa_model : string;
  oa_input : string;
  oa_voice : PyVal;
  oa_speed : PyVal;
  oa_response_format : string
}.

Definition openai_payload (self : OpenAIVoiceProvider) (text : string)
    (voice_params : gmap string PyVal) : OpenAIPayload :=
  {| oa_model := openai_model self;
     oa_input := text;
     oa_voice := default (VStr "ash") (voice_params !! "voice");
     oa_speed := default (VFloat 1) (voice_params !! "speed");
     oa_response_format := "wav" |}.

Definition openai_text_to_speech (self : OpenAIVoiceProvider) (text : string)
    (voice_params : gmap string PyVal)
    (backend : OpenAIPayload -> string + Response) : string + list Byte.byte :=
  exchange "OpenAI" (openai_payload self text voice_params) backend.

Definition openai_get_supported_voices : list string :=
  ["alloy"; "echo"; "fable"; "onyx"; "nova"; "shimmer";
   "ash"; "ballad"; "coral"; "sage"; "verse"].

(** ChatterAI and XTT hold the same fields and post the same body. *)
Record ServerVoiceProvider := {
  api_url : string;
  api_key : option string;
  model : string
}.

Record ServerPayload := {
  sp_text : string;
  sp_voice : PyVal;
  sp_speed : PyVal;
  sp_format : string
}.

Definition server_payload (self : ServerVoiceProvider) (text : string)
    (voice_params : gmap string PyVal) : ServerPayload :=
  {| sp_text := text;
     sp_voice := default (VStr (model self)) (voice_params !! "voice");
     sp_speed := default (VFloat 1) (voice_params !! "speed");
     sp_format := "wav" |}.

Definition chatterai_text_to_speech (self : ServerVoiceProvider) (text : string)
    (voice_params : gmap string PyVal)
    (backend : ServerPayload -> string + Response) : string + list Byte.byte :=
  exchange "ChatterAI" (server_payload self text voice_params) backend.

Definition xtt_text_to_speech (self : ServerVoiceProvider) (text : string)
    (voice_params : gmap string PyVal)
    (backend : ServerPayload -> string + Response) : string + list Byte.byte :=
  exchange "XTT" (server_payload self text voice_params) backend.

Definition chatterai_get_supported_voices : list string :=
  ["natural"; "expressive"; "calm"; "energetic"; "professional"; "friendly"].

Definition xtt_get_supported_voices : list string :=
  ["default"; "female"; "male"; "robotic"; "natural"; "expressive"].

(** A voice value the provider lists. *)
Definition recognized (supported : list string) (v : PyVal) : bool :=
  match v with
  | VStr s => bool_decide (s ∈ supported)
  | _ => false
  end.


(** A probe sent by [initialize]: the URL and the headers in the order
    they are set. *)
Record Request := {
  url : string;
  headers : list (string * PyVal)
}.

(** The answer to a probe: the status, and whether the body decodes to a
    JSON object (so that reading it does not raise). *)
Record ProbeAnswer := {
  answer_status : Z;
  answer_decodes : bool
}.

(** The attributes [OpenAIVoiceProvider.initialize] reads from [config]. *)
Record OpenAIVoiceFields := {
  f_api_key : PyVal;
  f_api_url : PyVal;
  f_model : PyVal;
  f_organization : PyVal;
  f_project_id : PyVal
}.

Definition openai_read_config (config : gmap string PyVal) : OpenAIVoiceFields :=
  {| f_api_key := dict_get config "api_key";
     f_api_url := dict_get_default config "api_url" (VStr "https://api.openai.com/v1");
     f_model := dict_get_default config "model" (VStr "tts-1");
     f_organization := dict_get config "organization";
     f_project_id := dict_get config "project_id" |}.

(** The probe of [OpenAIVoiceProvider.initialize], when its texts can be
    formatted. *)
Definition openai_probe (self : OpenAIVoiceFields) : option Request :=
  key ← py_str (f_api_key self);
  base ← py_str (f_api_url self);
  Some {| url := base +:+ "/models";
          headers :=
            [("Authorization", VStr ("Bearer " +:+ key));
             ("Content-Type", VStr "application/json")]
            ++ (if val_truthy (f_organization self)
                then [("OpenAI-Organization", f_organization self)] else [])
            ++ (if val_truthy (f_project_id self)
                then [("OpenAI-Project", f_project_id self)] else []) |}.

(** [OpenAIVoiceProvider.initialize]: the attributes and the flag. Without
    a key no request is made. [backend] answers the probe, [inl] when the
    request raises. [None] when a float would have to be formatted. *)
Definition openai_initialize (config : gmap string PyVal)
    (backend : Request -> string + ProbeAnswer) : option (OpenAIVoiceFields * bool) :=
  let self := openai_read_config config in
  if negb (val_truthy (f_api_key self)) then Some (self, false)
  else
    request ← openai_probe self;
    Some (self,
          match backend request with
          | inl _ => false
          | inr answer => answer_status answer =? 200
          end).

(** The attributes the ChatterAI and XTT providers read from [config]. *)
Record ServerVoiceFields := {
  s_api_url : PyVal;
  s_api_key : PyVal;
  s_model : PyVal
}.

Definition server_read_config (default_url default_model : string)
    (config : gmap string PyVal) : ServerVoiceFields :=
  {| s_api_url := dict_get_default config "api_url" (VStr default_url);
     s_api_key := dict_get config "api_key";
     s_model := dict_get_default config "model" (VStr default_model) |}.

(** The flag after the probe of the voices: status 200 and a body that
    decodes. *)
Definition voices_probe_ok (outcome : string + ProbeAnswer) : bool :=
  match outcome with
  | inl _ => false
  | inr answer => (answer_status answer =? 200) && answer_decodes answer
  end.

(** [ChatterAIVoiceProvider.initialize] *)
Definition chatterai_initialize (config : gmap string PyVal)
    (backend : Request -> string + ProbeAnswer) : option (ServerVoiceFields * bool) :=
  let self := server_read_config "https://api.chatterai.com" "natural" config in
  if negb (val_truthy (s_api_key self)) then Some (self, false)
  else
    key ← py_str (s_api_key self);
    base ← py_str (s_api_url self);
    Some (self,
          voices_probe_ok
            (backend {| url := base +:+ "/api/v1/voices";
                        headers := [("Authorization", VStr ("Bearer " +:+ key))] |})).

(** [XTTVoiceProvider.initialize]: the key is optional. *)
Definition xtt_initialize (config : gmap string PyVal)
    (backend : Request -> string + ProbeAnswer) : option (ServerVoiceFields * bool) :=
  let self := server_read_config "http://localhost:8080" "default" config in
  hdrs ← (if val_truthy (s_api_key self)
          then key ← py_str (s_api_key self);
               Some [("Authorization", VStr ("Bearer " +:+ key))]
          else Some []);
  base ← py_str (s_api_url self);
  Some (self,
        voices_probe_ok
          (backend {| url := base +:+ "/api/v1/voices"; headers := hdrs |})).
End Voice.

(** ** The orchestrator ([main.py]) *)

Module Main.
Import Env.

Record LLMConfig := {
  provider : string;
  model : string;
  api_key : option string;
  api_url : option string
}.

Definition detect_llm_provider (env : gmap string string) : string :=
  if truthy (getenv env "LLM_PROVIDER") then
    PyStr.lower (getenv_default env "LLM_PROVIDER" EmptyString)
  else if truthy (getenv env "OLLAMA_HOST") || truthy (getenv env "OLLAMA_URL") then "ollama"
  else if truthy (getenv env "KOBOLD_URL") then "kobold"
  else "openai".

(** The [LLMConfig] of [load_config]; the two numeric fields are parsed from
    text on their own and are left out. *)
Definition load_config_llm (env : gmap string string) : LLMConfig :=
  let llm_provider := detect_llm_provider env in
  if String.eqb llm_provider "openai" then
    {| provider := "openai";
       model := getenv_default env "OPENAI_MODEL" "gpt-4o-mini-realtime-preview";
       api_key := getenv env "OPENAI_API_KEY";
       api_url := getenv env "OPENAI_API_URL" |}
  else if String.eqb llm_provider "ollama" then
    let api_url0 := or (getenv env "LLM_API_URL") (getenv env "OLLAMA_URL") in
    let api_url1 :=
      if negb (truthy api_url0) && truthy (getenv env "OLLAMA_HOST") then
        let host := getenv_default env "OLLAMA_HOST" EmptyString in
        Some (if negb (PyStr.contains "://" host) then "http://" +:+ host else host)
      else api_url0 in
    {| provider := "ollama";
       model := getenv_default env "LLM_MODEL"
                  (getenv_default env "OLLAMA_MODEL" "llama3.2:latest");
       api_key := None;
       api_url := or api_url1 (Some "http://localhost:11434") |}
  else if String.eqb llm_provider "kobold" then
    {| provider := "kobold";
       model := "kobold";
       api_key := getenv env "KOBOLD_API_KEY";
       api_url := Some (getenv_default env "LLM_API_URL"
                          (getenv_default env "KOBOLD_URL" "http://localhost:5000")) |}
  else
    {| provider := "openai"; model := "gpt-4o-mini-realtime-preview";
       api_key := None; api_url := None |}.

(** What a response handler does that can be seen from outside. *)
Inductive Action :=
| Banner
| Fragment (text : string)
| NewLine
| ShowText (text : string)
| ShowError (message : string)
| GenerateVoice (text : string).

(** The [async for] of [_handle_streaming_response], started with
    [complete_text]: the actions of the loop, and the accumulated text when
    the loop is left by exhaustion or [break], [None] when it is left by
    [return]. *)
Fixpoint streaming_loop (complete_text : string) (chunks : list ResponseChunk)
  : list Action * option string :=
  match chunks with
  | [] => ([], Some complete_text)
  | text_delta text _ :: rest =>
      let '(acts, r) := streaming_loop (complete_text +:+ text) rest in
      (Fragment text :: acts, r)
  | error_chunk message :: _ => ([ShowError message], None)
  | text_complete _ done :: rest =>
      if done then ([NewLine], Some complete_text)
      else streaming_loop complete_text rest
  end.

Definition _handle_streaming_response (chunks : list ResponseChunk) : list Action :=
  let '(acts, r) := streaming_loop EmptyString chunks in
  Banner :: acts ++
  match r with
  | None => []
  | Some complete_text =>
      if PyStr.truthy (PyStr.strip complete_text)
      then [GenerateVoice (PyStr.strip complete_text)]
      else []
  end.

Fixpoint _handle_complete_response (chunks : list ResponseChunk) : list Action :=
  match chunks with
  | [] => []
  | text_complete text _ :: rest =>
      (if PyStr.truthy (PyStr.strip text) then [ShowText text; GenerateVoice text] else [])
      ++ _handle_complete_response rest
  | error_chunk message :: rest => ShowError message :: _handle_complete_response rest
  | text_delta _ _ :: rest => _handle_complete_response rest
  end.


Record VoiceConfig := {
  voice_provider : string;
  voice : string;
  voice_model : string;
  voice_api_key : option string;
  voice_api_url : option string
}.

Definition detect_voice_provider (env : gmap string string) : string :=
  if truthy (getenv env "VOICE_PROVIDER") then
    PyStr.lower (getenv_default env "VOICE_PROVIDER" EmptyString)
  else if truthy (getenv env "CHATTERAI_API_KEY") then "chatterai"
  else if truthy (getenv env "XTT_API_URL") then "xtt"
  else "openai".

(** The [VoiceConfig] of [load_config], without the parsed speed. *)
Definition load_config_voice (env : gmap string string) : VoiceConfig :=
  let provider := detect_voice_provider env in
  if String.eqb provider "openai" then
    {| voice_provider := "openai";
       voice := getenv_default env "VOICE" "ash";
       voice_model := getenv_default env "OPENAI_VOICE_MODEL" "tts-1";
       voice_api_key := match getenv env "OPENAI_VOICE_API_KEY" with
                        | Some k => Some k
                        | None => getenv env "OPENAI_API_KEY"
                        end;
       voice_api_url := getenv env "OPENAI_VOICE_API_URL" |}
  else if String.eqb provider "chatterai" then
    {| voice_provider := "chatterai";
       voice := getenv_default env "VOICE" "natural";
       voice_model := getenv_default env "CHATTERAI_MODEL" "natural";
       voice_api_key := getenv env "CHATTERAI_API_KEY";
       voice_api_url :=
         Some (getenv_default env "VOICE_API_URL"
                 (getenv_default env "CHATTERAI_URL" "https://api.chatterai.com")) |}
  else if String.eqb provider "xtt" then
    {| voice_provider := "xtt";
       voice := getenv_default env "VOICE" "default";
       voice_model := getenv_default env "XTT_MODEL" "default";
       voice_api_key := getenv env "XTT_API_KEY";
       voice_api_url :=
         Some (getenv_default env "VOICE_API_URL"
                 (getenv_default env "XTT_API_URL" "http://localhost:8080")) |}
  else
    {| voice_provider := "openai"; voice := "ash"; voice_model := "tts-1";
       voice_api_key := None; voice_api_url := None |}.

(** The dictionary [BillyBassAssistant.initialize] hands to
    [create_llm_provider]; the two numbers are those of the configuration. *)
Definition llm_config (c : LLMConfig) (temperature : Q) (max_tokens : Z)
  : gmap string PyVal :=
  {[ "provider" := VStr (provider c);
     "model" := VStr (model c);
     "api_key" := of_opt (api_key c);
     "api_url" := of_opt (api_url c);
     "temperature" := VFloat temperature;
     "max_tokens" := VInt max_tokens ]}.

(** The dictionary handed to [create_voice_provider]. *)
Definition voice_config (c : VoiceConfig) (speed : Q) : gmap string PyVal :=
  {[ "provider" := VStr (voice_provider c);
     "voice" := VStr (voice c);
     "model" := VStr (voice_model c);
     "api_key" := of_opt (voice_api_key c);
     "api_url" := of_opt (voice_api_url c);
     "speed" := VFloat speed ]}.

(** [voice_params] of [_generate_voice_response]. *)
Definition voice_params (c : VoiceConfig) (speed : Q) : gmap string PyVal :=
  {[ "voice" := VStr (voice c); "speed" := VFloat speed ]}.
End Main.

(** ** The orchestrator around a Kobold provider

    [BillyBassAssistant] holding a [KoboldProvider] (or no provider); of
    what it prints, the actions of the response handler are kept. *)

Module Orchestrator.
Import Kobold Main.

Record BillyBassAssistant := {
  llm_provider : option KoboldProvider;
  session_active : bool
}.

Definition start_conversation (self : BillyBassAssistant) : BillyBassAssistant * bool :=
  match llm_provider self with
  | None => (self, false)
  | Some p =>
      ({| llm_provider := Some (fst (start_session p)); session_active := true |}, true)
  end.

(** The [try] block of [process_user_input] for a provider [p]. *)
Definition respond (p : KoboldProvider) (user_message : string)
    (backend : Payload -> BackendOutcome) : KoboldProvider * list Action :=
  let p1 := send_message p user_message in
  match get_model_type p1 with
  | REALTIME => (p1, [])
  | STREAMING =>
      let '(chunks, p2) := get_response_stream p1 backend in
      (p2, _handle_streaming_response chunks)
  | REQUEST_RESPONSE =>
      let '(chunks, p2) := get_response_stream p1 backend in
      (p2, _handle_complete_response chunks)
  end.

Definition process_user_input (self : BillyBassAssistant) (user_message : string)
    (backend : Payload -> BackendOutcome) : BillyBassAssistant * list Action :=
  let '(self1, started) :=
    if session_active self then (self, true) else start_conversation self in
  if started then
    match llm_provider self1 with
    | None => (self1, [])
    | Some p =>
        let '(p', acts) := respond p user_message backend in
        ({| llm_provider := Some p'; session_active := session_active self1 |}, acts)
    end
  else (self1, []).

(** Several inputs in a row, each with the server that answers it. *)
Fixpoint process_all (self : BillyBassAssistant)
    (turns : list (string * (Payload -> BackendOutcome)))
  : BillyBassAssistant * list (list Action) :=
  match turns with
  | [] => (self, [])
  | (user_message, backend) :: rest =>
      let '(self1, acts) := process_user_input self user_message backend in
      let '(self2, log) := process_all self1 rest in
      (self2, acts :: log)
  end.

End Orchestrator.

(** ** Reading histories *)

Module HistoryView.

Definition is_user_entry (e : string) : bool := PyStr.startswith "User: " e.

Definition is_assistant_entry (e : string) : bool := PyStr.startswith "Assistant: " e.

(** An entry written by [send_message] or by [get_response_stream]. *)
Definition tagged (e : string) : Prop :=
  is_user_entry e = true ∨ is_assistant_entry e = true.

(** The history of the provider an assistant holds. *)
Definition history (a : Orchestrator.BillyBassAssistant) : list string :=
  match Orchestrator.llm_provider a with
  | Some p => Kobold.conversation_history p
  | None => []
  end.

End HistoryView.

(** ** Reading streams and action logs

    What the properties below say about a stream of chunks and about the
    actions of a handler. *)

Module StreamView.
Import Main.

(** The text handed to [_generate_voice_response], if any. *)
Definition voice_input (acts : list Action) : option string :=
  head (omap (λ a, match a with GenerateVoice t => Some t | _ => None end) acts).

(** The error reported to the user, if any. *)
Definition shown_error (acts : list Action) : option string :=
  head (omap (λ a, match a with ShowError m => Some m | _ => None end) acts).

(** The fragments shown to the user, in order. *)
Definition fragments (acts : list Action) : list string :=
  omap (λ a, match a with Fragment t => Some t | _ => None end) acts.

(** The message of the first error chunk of a stream, if any. *)
Definition error_message (chunks : list ResponseChunk) : option string :=
  head (omap (λ c, match c with error_chunk m => Some m | _ => None end) chunks).

(** The texts of the incremental chunks of a stream, in order. *)
Definition delta_texts (chunks : list ResponseChunk) : list string :=
  omap (λ c, match c with text_delta t _ => Some t | _ => None end) chunks.

Definition delta_text (c : ResponseChunk) : string :=
  match c with text_delta t _ => t | _ => EmptyString end.

(** Concatenation of the texts of all incremental chunks, in order. *)
Definition concat_deltas (chunks : list ResponseChunk) : string :=
  foldr (λ c acc, delta_text c +:+ acc) EmptyString chunks.

(** The invariant of the chunk model: no chunk follows a terminal chunk. *)
Fixpoint well_formed (chunks : list ResponseChunk) : bool :=
  match chunks with
  | [] => true
  | c :: rest => if terminal c then match rest with [] => true | _ => false end
                 else well_formed rest
  end.

(** Nothing that counts comes after the chunk at which the streaming loop
    stops reading: after a complete chunk flagged [done] there is no error
    chunk and no incremental text. Every stream that keeps the invariant
    [well_formed] is of this kind, and so is every stream made of
    incremental and error chunks only. *)
Fixpoint settled (chunks : list ResponseChunk) : bool :=
  match chunks with
  | [] => true
  | error_chunk _ :: _ => true
  | text_complete _ true :: rest =>
      negb (existsb is_error rest) && negb (PyStr.truthy (concat_deltas rest))
  | _ :: rest => settled rest
  end.

(** All texts handed to [_generate_voice_response], in order. *)
Definition voice_inputs (acts : list Action) : list string :=
  omap (λ a, match a with GenerateVoice t => Some t | _ => None end) acts.

(** All errors reported to the user, in order. *)
Definition shown_errors (acts : list Action) : list string :=
  omap (λ a, match a with ShowError m => Some m | _ => None end) acts.

(** The non-blank texts of the complete chunks of a stream, in order. *)
Definition spoken_texts (chunks : list ResponseChunk) : list string :=
  omap (λ c, match c with
             | text_complete t _ => if PyStr.blank t then None else Some t
             | _ => None
             end) chunks.

(** The messages of all error chunks of a stream, in order. *)
Definition error_messages (chunks : list ResponseChunk) : list string :=
  omap (λ c, match c with error_chunk m => Some m | _ => None end) chunks.

(** The voices a registered voice provider lists. *)
Definition supported_voices (provider : string) : list string :=
  if String.eqb provider "openai" then Voice.openai_get_supported_voices
  else if String.eqb provider "chatterai" then Voice.chatterai_get_supported_voices
  else if String.eqb provider "xtt" then Voice.xtt_get_supported_voices
  else [].

End StreamView.


(** ** The precedence chain in the words of the specification

    An explicit override wins; otherwise the first heuristic one of whose
    hint variables is set selects its backend; otherwise the default. The
    heuristics are a list so that their evaluation order can be varied. *)

Module Precedence.

Definition heuristic : Type := list string * string.

Definition fires (env : gmap string string) (h : heuristic) : bool :=
  existsb (Env.is_set env) (fst h).

Fixpoint first_hint (env : gmap string string) (hs : list heuristic) : option string :=
  match hs with
  | [] => None
  | h :: rest => if fires env h then Some (snd h) else first_hint env rest
  end.

Definition chain (env : gmap string string) (override : string)
    (hs : list heuristic) (fallback : string) : string :=
  if Env.is_set env override
  then PyStr.lower (Env.getenv_default env override EmptyString)
  else default fallback (first_hint env hs).

(** The heuristics of [core/config.py], in its order. *)
Definition config_heuristics : list heuristic :=
  [(["OLLAMA_HOST"; "OLLAMA_URL"; "LLM_API_URL"], "ollama");
   (["KOBOLD_URL"; "KOBOLD_HOST"], "kobold")].

(** The heuristics of [main.py], in its order. *)
Definition main_heuristics : list heuristic :=
  [(["OLLAMA_HOST"; "OLLAMA_URL"], "ollama"); (["KOBOLD_URL"], "kobold")].

End Precedence.

(** ** Sessions used as examples *)

Module Scenario.
Import Kobold.

Definition fresh (max : Z) : KoboldProvider :=
  {| api_url := "http://localhost:5000"; temperature := 7 # 10;
     max_tokens := 150; max_context := max; conversation_history := [] |}.

(** A server that answers every request with status 200 and the text [t]. *)
Definition reply_with (t : string) : Payload -> BackendOutcome :=
  fun _ => inr {| status := 200;
                  json := inr {| results := Some [Some t] |};
                  text := inr t |}.

(** One exchange and a second question; the reply has two lines. *)
Definition multiline_session : KoboldProvider :=
  send_message
    (snd (get_response_stream (send_message (fresh 25) "hi") (reply_with "a
b")))
    "yo".

(** One exchange and a second question, all on single lines. *)
Definition short_session : KoboldProvider :=
  send_message
    (snd (get_response_stream (send_message (fresh 20) "a") (reply_with "b")))
    "c".

(** Only the generic URL override is set. *)
Definition generic_url_env : gmap string string :=
  {[ "LLM_API_URL" := "http://box:8000" ]}.

(** An Ollama host without a scheme. *)
Definition ollama_host_env : gmap string string :=
  {[ "OLLAMA_HOST" := "pi.local:11434" ]}.

(** An Ollama host together with the generic URL override. *)
Definition ollama_host_and_generic_env : gmap string string :=
  <[ "OLLAMA_HOST" := "pi.local:11434" ]> generic_url_env.

(** An explicit override next to hints of both backends. *)
Definition override_env : gmap string string :=
  <[ "LLM_PROVIDER" := "Kobold" ]>
    (<[ "KOBOLD_URL" := "http://k:5000" ]> ollama_host_env).

(** A stream in which chunks follow the chunk flagged [done]. *)
Definition stream_past_done : list ResponseChunk :=
  [text_delta "Hi " false; text_complete EmptyString true;
   text_delta "there" false; error_chunk "boom"].

(** A stream as the incremental provider produces it. *)
Definition plain_stream : list ResponseChunk :=
  [text_delta "Hi " false; text_delta "there " false; text_delta EmptyString true].

(** A configuration naming a provider that is not registered. *)
Definition claude_config : gmap string PyVal :=
  {[ "provider" := VStr "Claude" ]}.

(** Every initialization succeeds. *)
Definition always_ready {C : Type} : C -> gmap string PyVal -> string + bool :=
  fun _ _ => inr true.

Definition openai_voice : Voice.OpenAIVoiceProvider :=
  {| Voice.openai_api_key := Some "sk-test";
     Voice.openai_api_url := "https://api.openai.com/v1";
     Voice.openai_model := "tts-1";
     Voice.organization := None;
     Voice.project_id := None |}.

(** Parameters naming a voice the provider does not list. *)
Definition bogus_voice_params : gmap string PyVal :=
  {[ "voice" := VStr "bogus"; "speed" := VFloat 1 ]}.

(** A speech server that accepts the voices the provider lists and answers
    status 400 to any other. *)
Definition strict_openai_backend (payload : Voice.OpenAIPayload)
  : string + Voice.Response :=
  if Voice.recognized Voice.openai_get_supported_voices (Voice.oa_voice payload)
  then inr {| Voice.status := 200; Voice.body := []; Voice.text := EmptyString |}
  else inr {| Voice.status := 400; Voice.body := []; Voice.text := "invalid voice" |}.

End Scenario.


(** * Properties *)

(** ** The definitions on concrete inputs *)

Section Checks.
Import Kobold.

Example lower_mixed : PyStr.lower "OLLaMa-7" = "ollama-7".
Proof. reflexivity. Qed.

Example strip_both : PyStr.strip "  a b
 " = "a b".
Proof. reflexivity. Qed.

Example split_three : PyStr.split_lines "a

b" = ["a"; EmptyString; "b"].
Proof. reflexivity. Qed.

Example of_int_500 : PyStr.of_int 500 = "500".
Proof. reflexivity. Qed.

Example available_llm_text :
  PyStr.str_of_list Factory.get_available_llm_providers = "['openai', 'ollama', 'kobold']".
Proof. reflexivity. Qed.

(** The echoed role prefix is removed from the reply. *)
Example fish_joke :
  get_response_stream (send_message (Scenario.fresh 2048) "Tell a joke")
    (Scenario.reply_with "Assistant: Why did the fish blush? It saw the ocean's bottom.")
  = ([text_complete "Why did the fish blush? It saw the ocean's bottom." true],
     with_history (Scenario.fresh 2048)
       ["User: Tell a joke";
        "Assistant: Why did the fish blush? It saw the ocean's bottom."]).
Proof. reflexivity. Qed.

Example server_error :
  fst (get_response_stream (send_message (Scenario.fresh 2048) "hi")
         (fun _ => inr {| status := 503; json := inl "not json";
                          text := inr "busy" |}))
  = [error_chunk "Kobold server error 503: busy"].
Proof. reflexivity. Qed.

Example empty_results :
  fst (get_response_stream (send_message (Scenario.fresh 2048) "hi")
         (fun _ => inr {| status := 200; json := inr {| results := Some [] |};
                          text := inr EmptyString |}))
  = [error_chunk "Connection error to Kobold server: list index out of range"].
Proof. reflexivity. Qed.

Example complete_handler :
  Main._handle_complete_response [text_complete "Blub." true]
  = [Main.ShowText "Blub."; Main.GenerateVoice "Blub."].
Proof. reflexivity. Qed.

Example mixed_case_provider :
  Factory.create_llm_provider {[ "provider" := VStr "Kobold" ]} Scenario.always_ready
  = (inr Factory.KoboldProvider,
     [Factory.Instantiated Factory.KoboldProvider;
      Factory.Initialized Factory.KoboldProvider]).
Proof. reflexivity. Qed.

End Checks.

(** ** Strings: splitting and joining lines *)

Section Lines.

Local Abbreviation join := (PyStr.join PyStr.nl).

Lemma join_cons_char c l ls : join (String c l :: ls) = String c (join (l :: ls)).
Proof. by destruct ls. Qed.

Lemma join_cons x y ys : join (x :: y :: ys) = x +:+ PyStr.nl +:+ join (y :: ys).
Proof. reflexivity. Qed.

Lemma split_lines_nonempty s : PyStr.split_lines s ≠ [].
Proof.
  destruct s as [|c s]; simpl; [done|].
  destruct (Ascii.eqb c PyStr.newline); [done|].
  by destruct (PyStr.split_lines s).
Qed.

(** ['\n'.join(s.split('\n')) == s] *)
Lemma join_split s : join (PyStr.split_lines s) = s.
Proof.
  induction s as [|c s IH]; simpl; [done|].
  destruct (Ascii.eqb_spec c PyStr.newline) as [->|_].
  - pose proof (split_lines_nonempty s) as Hne.
    destruct (PyStr.split_lines s) as [|l ls] eqn:E; [done|].
    rewrite join_cons, IH. reflexivity.
  - pose proof (split_lines_nonempty s) as Hne.
    destruct (PyStr.split_lines s) as [|l ls] eqn:E; [done|].
    by rewrite join_cons_char, IH.
Qed.

Lemma split_single_line x : PyStr.single_line x = true → PyStr.split_lines x = [x].
Proof.
  induction x as [|c x IH]; simpl; [done|].
  destruct (Ascii.eqb c PyStr.newline); simpl; [done|].
  intros H. by rewrite IH.
Qed.

Lemma split_app_nl x r :
  PyStr.single_line x = true →
  PyStr.split_lines (x +:+ String PyStr.newline r) = x :: PyStr.split_lines r.
Proof.
  induction x as [|c x IH]; simpl.
  - done.
  - destruct (Ascii.eqb c PyStr.newline); simpl; [done|].
    intros H. by rewrite IH.
Qed.

(** ['\n'.join(ls).split('\n') == ls] for lines without a line feed. *)
Lemma split_join ls :
  ls ≠ [] → forallb PyStr.single_line ls = true → PyStr.split_lines (join ls) = ls.
Proof.
  induction ls as [|x ls IH]; [done|].
  intros _ [Hx Hls]%andb_prop.
  destruct ls as [|y ys].
  - by apply split_single_line.
  - rewrite join_cons. change (PyStr.nl +:+ ?r) with (String PyStr.newline r).
    rewrite split_app_nl by done. by rewrite IH.
Qed.

Lemma split_lines_single_line s :
  forallb PyStr.single_line (PyStr.split_lines s) = true.
Proof.
  induction s as [|c s IH]; simpl; [done|].
  destruct (Ascii.eqb c PyStr.newline) eqn:Ec; simpl; [done|].
  destruct (PyStr.split_lines s) as [|l ls]; simpl in *; by rewrite ?Ec.
Qed.

Lemma string_app_cons c (a b : string) : String c a +:+ b = String c (a +:+ b).
Proof. reflexivity. Qed.

Lemma string_app_nil_l (b : string) : EmptyString +:+ b = b.
Proof. reflexivity. Qed.

Lemma string_app_length (a b : string) :
  String.length (a +:+ b) = (String.length a + String.length b)%nat.
Proof.
  induction a as [|c a IH]; [done|].
  rewrite string_app_cons. simpl. by rewrite IH.
Qed.

Lemma string_app_assoc (a b c : string) : (a +:+ b) +:+ c = a +:+ (b +:+ c).
Proof.
  induction a as [|x a IH]; [done|].
  rewrite !string_app_cons. by rewrite IH.
Qed.

Lemma string_app_nil_r (a : string) : a +:+ EmptyString = a.
Proof.
  induction a as [|x a IH]; [done|].
  rewrite string_app_cons. by rewrite IH.
Qed.

End Lines.


(** ** Context truncation of the Kobold prompt *)

Section Truncation.
Import Kobold.

Local Abbreviation join := (PyStr.join PyStr.nl).

Implicit Types (max : Z) (ls : list string) (h : list string).

Lemma forallb_drop {A} (f : A → bool) (k : nat) (l : list A) :
  forallb f l = true → forallb f (drop k l) = true.
Proof.
  revert k; induction l as [|x l IH]; intros [|k]; simpl; try done.
  intros [_ H]%andb_prop. by apply IH.
Qed.

Lemma Zgtb_false (a b : Z) : (a >? b) = false ↔ a ≤ b.
Proof. rewrite Z.gtb_ltb. apply Z.ltb_ge. Qed.

Lemma truncate_lines_cons max (x : string) ls :
  truncate_lines max (x :: ls) =
  if over_budget max (join (x :: ls)) && (Z.of_nat (length (x :: ls)) >? 2)
  then truncate_lines max ls else x :: ls.
Proof. reflexivity. Qed.

Lemma truncate_lines_short max ls :
  (length ls ≤ 2)%nat → truncate_lines max ls = ls.
Proof.
  destruct ls as [|x ls]; [done|]. intros Hlen. rewrite truncate_lines_cons.
  replace (Z.of_nat (length (x :: ls)) >? 2) with false; [by rewrite andb_false_r|].
  symmetry. apply Zgtb_false. lia.
Qed.

(** The loop removes a prefix, the shortest one after which its guard fails. *)
Lemma truncate_lines_drop max ls :
  ∃ k, truncate_lines max ls = drop k ls
     ∧ (∀ j, (j < k)%nat →
          over_budget max (join (drop j ls)) = true ∧ (2 < length (drop j ls))%nat)
     ∧ (over_budget max (join (drop k ls)) = false ∨ (length (drop k ls) ≤ 2)%nat).
Proof.
  induction ls as [|x ls (k & Hk & Hlt & Hstop)].
  - exists 0%nat. simpl. split; [done|]. split; [lia|]. right. lia.
  - rewrite truncate_lines_cons.
    destruct (over_budget max (join (x :: ls))) eqn:Ho;
      [destruct (Z.of_nat (length (x :: ls)) >? 2) eqn:Hl|]; cbn [andb].
    + exists (S k). split; [done|]. split; [|done].
      intros [|j] Hj; simpl drop.
      * split; [done|]. apply Z.gtb_lt in Hl. simpl in Hl |- *. lia.
      * apply Hlt. lia.
    + exists 0%nat. split; [done|]. split; [lia|]. right.
      simpl drop. apply Zgtb_false in Hl. simpl in Hl |- *. lia.
    + exists 0%nat. split; [done|]. split; [lia|]. by left.
Qed.

(** The loop never goes below two lines. *)
Lemma truncate_lines_floor max ls :
  (2 ≤ length ls)%nat → (2 ≤ length (truncate_lines max ls))%nat.
Proof.
  induction ls as [|x ls IH]; [done|]. intros Hlen. rewrite truncate_lines_cons.
  destruct (over_budget max (join (x :: ls))); cbn [andb]; [|done].
  destruct (Z.of_nat (length (x :: ls)) >? 2) eqn:Hl; [|done].
  apply IH. apply Z.gtb_lt in Hl. simpl in Hl. lia.
Qed.

Lemma split_lines_app_nl_length (a b : string) :
  (2 ≤ length (PyStr.split_lines (a +:+ String PyStr.newline b)))%nat.
Proof.
  induction a as [|c a IH].
  - rewrite string_app_nil_l. simpl.
    pose proof (split_lines_nonempty b).
    destruct (PyStr.split_lines b); [done|simpl; lia].
  - rewrite string_app_cons. simpl.
    destruct (Ascii.eqb c PyStr.newline); [simpl; lia|].
    destruct (PyStr.split_lines (a +:+ String PyStr.newline b)); simpl in *; lia.
Qed.

Lemma serialize_lines_length h :
  (2 ≤ length (PyStr.split_lines (serialize h)))%nat.
Proof. apply split_lines_app_nl_length. Qed.

Lemma join_snoc ls (x : string) :
  ls ≠ [] → join (ls ++ [x]) = join ls +:+ String PyStr.newline x.
Proof.
  induction ls as [|y ls IH]; [done|]. intros _.
  destruct ls as [|z ls]; [done|].
  specialize (IH ltac:(done)). simpl app in *.
  rewrite !join_cons in *. rewrite IH. by rewrite !string_app_assoc.
Qed.

(** For a non-empty history the prompt is the join of its entries and the cue. *)
Lemma serialize_join h : h ≠ [] → serialize h = join (h ++ ["Assistant:"]).
Proof. intros Hne. by rewrite join_snoc. Qed.

Lemma serialize_lines h :
  h ≠ [] → forallb PyStr.single_line h = true →
  PyStr.split_lines (serialize h) = (h ++ ["Assistant:"])%list.
Proof.
  intros Hne Hs. rewrite serialize_join by done. apply split_join.
  - by destruct h.
  - rewrite forallb_app, Hs. reflexivity.
Qed.

End Truncation.


Section TruncationClaims.
Import Kobold.

Local Abbreviation join := (PyStr.join PyStr.nl).

Lemma truncate_prompt_within max (s : string) :
  over_budget max s = false → truncate_prompt max s = s.
Proof. intros H. unfold truncate_prompt. by rewrite H. Qed.

Lemma truncate_lines_single_line max (ls : list string) :
  forallb PyStr.single_line ls = true →
  forallb PyStr.single_line (truncate_lines max ls) = true.
Proof.
  intros H. destruct (truncate_lines_drop max ls) as (k & -> & _).
  by apply forallb_drop.
Qed.

Lemma truncate_lines_nonempty max (ls : list string) :
  ls ≠ [] → truncate_lines max ls ≠ [].
Proof.
  destruct ls as [|x ls]; [done|]. intros _. rewrite truncate_lines_cons.
  destruct (over_budget max (join (x :: ls))); cbn [andb]; [|done].
  destruct (Z.of_nat (length (x :: ls)) >? 2) eqn:Hl; [|done].
  apply Z.gtb_lt in Hl. simpl in Hl.
  pose proof (truncate_lines_floor max ls) as Hf.
  intros Hnil. rewrite Hnil in Hf. simpl in Hf. lia.
Qed.

(** The lines of a truncated prompt are the lines the loop kept. *)
Lemma truncated_prompt_lines max (s : string) :
  over_budget max s = true →
  PyStr.split_lines (truncate_prompt max s) = truncate_lines max (PyStr.split_lines s).
Proof.
  intros H. unfold truncate_prompt. rewrite H. apply split_join.
  - apply truncate_lines_nonempty, split_lines_nonempty.
  - apply truncate_lines_single_line, split_lines_single_line.
Qed.

Lemma truncate_prompt_idempotent max (s : string) :
  truncate_prompt max (truncate_prompt max s) = truncate_prompt max s.
Proof.
  destruct (over_budget max s) eqn:Ho.
  2: { by rewrite !(truncate_prompt_within max s Ho). }
  destruct (over_budget max (truncate_prompt max s)) eqn:Ho'.
  2: { by rewrite (truncate_prompt_within max (truncate_prompt max s) Ho'). }
  unfold truncate_prompt at 1. rewrite Ho'.
  rewrite truncated_prompt_lines by done.
  destruct (truncate_lines_drop max (PyStr.split_lines s)) as (k & Hk & _ & Hstop).
  unfold truncate_prompt in Ho' |- *. rewrite Ho in Ho' |- *.
  rewrite Hk in Ho' |- *.
  destruct Hstop as [Hin|Hlen]; [congruence|].
  by rewrite truncate_lines_short.
Qed.

(** C4 (amended). The truncation step works on the lines of the serialized
    prompt (the history entries joined by line feeds, then the ["Assistant:"]
    cue). It removes the [k] oldest lines, one at a time and from the front
    only, so the surviving lines keep their order; [k] is the least number of
    removals after which the prompt is within [max_context] or only two
    lines are left, and it stops at two lines even when still over budget.
    When no history entry contains a line feed the removed lines are whole
    entries, the [k] oldest ones, and at least the newest entry survives. *)
Theorem truncation_drops_oldest_lines (p : KoboldProvider) :
  ∃ k : nat,
    build_prompt p = join (drop k (prompt_lines p))
    ∧ (∀ j, (j < k)%nat →
         over_budget (max_context p) (join (drop j (prompt_lines p))) = true
         ∧ (2 < length (drop j (prompt_lines p)))%nat)
    ∧ (over_budget (max_context p) (build_prompt p) = false
       ∨ length (drop k (prompt_lines p)) = 2%nat)
    ∧ (conversation_history p ≠ [] →
       forallb PyStr.single_line (conversation_history p) = true →
       (k < length (conversation_history p))%nat
       ∧ build_prompt p = serialize (drop k (conversation_history p))).
Proof.
  unfold build_prompt, prompt_lines.
  set (h := conversation_history p). set (m := max_context p).
  destruct (over_budget m (serialize h)) eqn:Ho.
  - destruct (truncate_lines_drop m (PyStr.split_lines (serialize h)))
      as (k & Hk & Hlt & Hstop).
    pose proof (truncate_lines_floor m _ (serialize_lines_length h)) as Hfloor.
    assert (Hp : truncate_prompt m (serialize h)
                 = join (drop k (PyStr.split_lines (serialize h)))).
    { unfold truncate_prompt. by rewrite Ho, Hk. }
    exists k. rewrite Hp. rewrite Hk in Hfloor.
    split; [done|]. split; [done|]. split.
    + destruct Hstop as [?|?]; [by left|right; lia].
    + intros Hne Hs. rewrite (serialize_lines h Hne Hs) in Hfloor |- *.
      rewrite length_drop, length_app in Hfloor. simpl in Hfloor.
      assert (Hk' : (k < length h)%nat) by lia.
      split; [done|].
      rewrite drop_app_le by lia.
      symmetry. apply serialize_join.
      intros Hnil. apply (f_equal length) in Hnil.
      rewrite length_drop in Hnil. simpl in Hnil. lia.
  - exists 0%nat. rewrite (truncate_prompt_within m _ Ho), !drop_0.
    split; [by rewrite join_split|]. split; [lia|]. split; [by left|].
    intros Hne _. split; [|done]. destruct h; [done|simpl; lia].
Qed.

Lemma truncation_drops_oldest_lines_witness :
  ∃ k : nat,
    (k < 3)%nat
    ∧ build_prompt Scenario.short_session
      = serialize (drop k (conversation_history Scenario.short_session)).
Proof.
  destruct (truncation_drops_oldest_lines Scenario.short_session)
    as (k & _ & _ & _ & H).
  exists k. apply H; [discriminate | reflexivity].
Defined.

(** C4 as stated fails: after one exchange whose reply has two lines, the
    truncated prompt is not the serialization of any suffix of the history;
    the first line of the reply is removed and its second line is kept. *)
Lemma truncation_splits_a_turn :
  conversation_history Scenario.multiline_session
    = ["User: hi"; "Assistant: a
b"; "User: yo"]
  ∧ build_prompt Scenario.multiline_session = "b
User: yo
Assistant:"
  ∧ ¬ ∃ k : nat, build_prompt Scenario.multiline_session
                 = serialize (drop k (conversation_history Scenario.multiline_session)).
Proof.
  split; [reflexivity|]. split; [reflexivity|].
  intros [k Hk].
  destruct k as [|[|[|[|k]]]]; vm_compute in Hk; discriminate.
Qed.

(** C5 (amended). Truncating a prompt that is within budget changes nothing,
    truncating twice is the same as truncating once, and the prompt that is
    sent always has at least two lines: the floor counts lines of the
    serialized prompt, the ["Assistant:"] cue among them. *)
Theorem truncation_idempotent_two_line_floor :
  (∀ max (s : string), over_budget max s = false → truncate_prompt max s = s)
  ∧ (∀ max (s : string),
       truncate_prompt max (truncate_prompt max s) = truncate_prompt max s)
  ∧ (∀ p : KoboldProvider, (2 ≤ length (PyStr.split_lines (build_prompt p)))%nat).
Proof.
  split; [exact truncate_prompt_within|]. split; [exact truncate_prompt_idempotent|].
  intros p. unfold build_prompt.
  destruct (over_budget (max_context p) (serialize (conversation_history p))) eqn:Ho.
  - rewrite truncated_prompt_lines by done.
    apply truncate_lines_floor, serialize_lines_length.
  - rewrite truncate_prompt_within by done. apply serialize_lines_length.
Qed.

Lemma truncation_idempotent_two_line_floor_witness :
  truncate_prompt 64 (serialize ["User: hello"]) = serialize ["User: hello"].
Proof.
  apply (proj1 truncation_idempotent_two_line_floor). reflexivity.
Defined.

(** C5 as stated fails: with three single-line entries and a budget of 20
    the truncated prompt holds the newest entry alone, one entry and not
    two; no suffix of two or more entries is what is sent. *)
Lemma truncation_keeps_one_entry :
  conversation_history Scenario.short_session
    = ["User: a"; "Assistant: b"; "User: c"]
  ∧ build_prompt Scenario.short_session = serialize ["User: c"]
  ∧ ¬ ∃ k : nat,
        build_prompt Scenario.short_session
          = serialize (drop k (conversation_history Scenario.short_session))
        ∧ (2 ≤ length (drop k (conversation_history Scenario.short_session)))%nat.
Proof.
  split; [reflexivity|]. split; [reflexivity|].
  intros (k & Hk & Hlen).
  destruct k as [|[|k]]; [vm_compute in Hk; discriminate ..|].
  rewrite length_drop in Hlen. simpl in Hlen. lia.
Qed.

End TruncationClaims.


(** ** One turn of the Kobold provider *)

Section KoboldTurn.
Import Kobold.

Local Abbreviation join := (PyStr.join PyStr.nl).

Lemma lstrip_blank (s : string) : PyStr.blank s = true → PyStr.lstrip s = EmptyString.
Proof.
  induction s as [|c s IH]; simpl; [done|].
  intros [Hc Hs]%andb_prop. rewrite Hc. by apply IH.
Qed.

Lemma strip_blank (s : string) : PyStr.blank s = true → PyStr.strip s = EmptyString.
Proof. intros H. unfold PyStr.strip. by rewrite lstrip_blank. Qed.

(** What [complete] yields and leaves. *)
Lemma complete_cases (p : KoboldProvider) (raw : string) :
  ∃ t, fst (complete p raw) = [text_complete t true]
     ∧ (snd (complete p raw) = p ∧ PyStr.strip raw = EmptyString ∧ t = EmptyString
        ∨ snd (complete p raw)
            = with_history p (conversation_history p ++ ["Assistant: " +:+ t])
          ∧ PyStr.strip raw ≠ EmptyString).
Proof.
  unfold complete. destruct (PyStr.strip raw) as [|c r] eqn:E; simpl PyStr.truthy; cbv iota.
  - exists EmptyString. split; [done|]. by left.
  - eexists. split; [reflexivity|]. right. by split.
Qed.

(** Every path of [get_response_stream] yields one chunk and either keeps
    the provider as it is or appends one assistant entry. *)
Lemma get_response_stream_cases (p : KoboldProvider) (backend : Payload → BackendOutcome) :
  (∃ m, get_response_stream p backend = ([error_chunk m], p))
  ∨ (∃ resp data raw,
       backend (build_payload p) = inr resp ∧ status resp = 200
       ∧ json resp = inr data ∧ first_text data = inr raw
       ∧ get_response_stream p backend = complete p raw).
Proof.
  unfold get_response_stream.
  destruct (backend (build_payload p)) as [e|resp] eqn:Eb; [left; by eexists|].
  destruct (status resp =? 200) eqn:Es.
  - destruct (json resp) as [e|data] eqn:Ej; [left; by eexists|].
    destruct (first_text data) as [e|raw] eqn:Ef; [left; by eexists|].
    right. exists resp, data, raw. apply Z.eqb_eq in Es. done.
  - destruct (text resp); left; by eexists.
Qed.

Lemma join_app_length (h l : list string) :
  (String.length (join h) ≤ String.length (join (h ++ l)))%nat.
Proof.
  induction h as [|x h IH]; [simpl; lia|].
  destruct h as [|y h].
  - destruct l as [|z l]; [done|].
    change ([x] ++ z :: l)%list with (x :: z :: l).
    rewrite join_cons, string_app_length. simpl. lia.
  - change ((x :: y :: h) ++ l)%list with (x :: y :: (h ++ l))%list.
    rewrite !join_cons, !string_app_length.
    change (y :: (h ++ l))%list with ((y :: h) ++ l)%list. lia.
Qed.

(** Appending entries never shortens the serialized prompt. *)
Lemma over_budget_app max (h l : list string) :
  over_budget max (serialize h) = true → over_budget max (serialize (h ++ l)) = true.
Proof.
  unfold over_budget, serialize, PyStr.len. rewrite !string_app_length.
  intros H%Z.gtb_lt. apply Z.gtb_lt.
  pose proof (join_app_length h l). lia.
Qed.

(** C1. Whatever the backend does (status 200, another status, an exception
    of the transport or of decoding), the stream of the Kobold provider for
    a submitted message is exactly one chunk, and that chunk is terminal:
    a [text_complete] with [done = True] or an [error]. So there is one
    terminal chunk, never two, never none, and nothing after it. *)
Theorem kobold_stream_one_terminal_chunk
    (p : KoboldProvider) (message : string) (backend : Payload → BackendOutcome) :
  ∃ c, fst (get_response_stream (send_message p message) backend) = [c]
     ∧ terminal c = true
     ∧ ((∃ t, c = text_complete t true) ∨ (∃ m, c = error_chunk m))
     ∧ length (filter (λ c, terminal c = true)
                 (fst (get_response_stream (send_message p message) backend))) = 1%nat.
Proof.
  destruct (get_response_stream_cases (send_message p message) backend)
    as [[m ->]|(resp & data & raw & _ & _ & _ & _ & ->)].
  - exists (error_chunk m).
    split; [done|]. split; [done|]. split; [right; by eexists|done].
  - destruct (complete_cases (send_message p message) raw) as (t & -> & _).
    exists (text_complete t true).
    split; [done|]. split; [done|]. split; [left; by eexists|done].
Qed.

(** C9. The truncation step works on the prompt of the current request
    only. After [get_response_stream] the stored history is the old one,
    or the old one with one ["Assistant: ..."] entry appended, and that
    happens only on a status 200 answer; the stored history does not depend
    on [max_context]; and a history whose serialization is over budget
    is still over budget, in full, at the next turn. *)
Theorem kobold_truncation_leaves_history
    (p : KoboldProvider) (backend : Payload → BackendOutcome) :
  (conversation_history (snd (get_response_stream p backend)) = conversation_history p
   ∨ ∃ t resp,
       conversation_history (snd (get_response_stream p backend))
         = (conversation_history p ++ ["Assistant: " +:+ t])%list
       ∧ backend (build_payload p) = inr resp ∧ status resp = 200
       ∧ fst (get_response_stream p backend) = [text_complete t true])
  ∧ max_context (snd (get_response_stream p backend)) = max_context p
  ∧ (∀ (outcome : BackendOutcome) (max : Z),
       conversation_history
         (snd (get_response_stream (with_max_context p max) (λ _, outcome)))
       = conversation_history (snd (get_response_stream p (λ _, outcome))))
  ∧ (∀ message : string,
       over_budget (max_context p) (serialize (conversation_history p)) = true →
       over_budget (max_context (snd (get_response_stream p backend)))
         (serialize (conversation_history
                       (send_message (snd (get_response_stream p backend)) message)))
       = true).
Proof.
  assert (Hcases :
    (snd (get_response_stream p backend) = p)
    ∨ ∃ t resp,
        snd (get_response_stream p backend)
          = with_history p (conversation_history p ++ ["Assistant: " +:+ t])
        ∧ backend (build_payload p) = inr resp ∧ status resp = 200
        ∧ fst (get_response_stream p backend) = [text_complete t true]).
  { destruct (get_response_stream_cases p backend)
      as [[m ->]|(resp & data & raw & Hb & Hs & _ & _ & ->)]; [by left|].
    destruct (complete_cases p raw) as (t & Hfst & [(-> & _)|(-> & _)]); [by left|].
    right. by exists t, resp. }
  split; [|split; [|split]].
  - destruct Hcases as [->|(t & resp & -> & ?)]; [by left|]. right. by exists t, resp.
  - by destruct Hcases as [->|(t & resp & -> & ?)].
  - intros outcome max. unfold get_response_stream.
    destruct outcome as [e|resp]; [done|].
    destruct (status resp =? 200); [|by destruct (text resp)].
    destruct (json resp) as [e|data]; [done|].
    destruct (first_text data) as [e|raw]; [done|].
    unfold complete. by destruct (PyStr.truthy (PyStr.strip raw)).
  - intros message Ho.
    destruct Hcases as [->|(t & resp & -> & ?)]; simpl.
    + by apply over_budget_app.
    + rewrite <- app_assoc. by apply over_budget_app.
Qed.

Lemma kobold_truncation_leaves_history_witness :
  over_budget 20
    (serialize (conversation_history
       (send_message
          (snd (get_response_stream Scenario.short_session (Scenario.reply_with "d")))
          "e")))
  = true.
Proof.
  apply (proj2 (proj2 (proj2
           (kobold_truncation_leaves_history Scenario.short_session
              (Scenario.reply_with "d"))))).
  reflexivity.
Defined.

(** C10. When the server answers with status 200 and a text that is empty
    or whitespace only, the stream is the single chunk [text_complete]
    with empty text and [done = True], no ["Assistant:"] entry is appended,
    and the message submitted by [send_message] stays the last entry. *)
Theorem kobold_blank_reply
    (p : KoboldProvider) (message : string) (backend : Payload → BackendOutcome)
    (resp : Response) (data : ReplyData) (raw : string) :
  backend (build_payload (send_message p message)) = inr resp →
  status resp = 200 →
  json resp = inr data →
  first_text data = inr raw →
  PyStr.blank raw = true →
  get_response_stream (send_message p message) backend
    = ([text_complete EmptyString true], send_message p message)
  ∧ conversation_history (snd (get_response_stream (send_message p message) backend))
    = (conversation_history p ++ ["User: " +:+ message])%list
  ∧ last (conversation_history
            (snd (get_response_stream (send_message p message) backend)))
    = Some ("User: " +:+ message).
Proof.
  intros Hb Hs Hj Hf Hblank.
  assert (Hrun : get_response_stream (send_message p message) backend
                 = ([text_complete EmptyString true], send_message p message)).
  { unfold get_response_stream. rewrite Hb, Hs, Hj, Hf. simpl.
    unfold complete. by rewrite (strip_blank raw Hblank). }
  rewrite Hrun. simpl. split; [done|]. split; [done|]. apply last_snoc.
Qed.

Lemma kobold_blank_reply_witness :
  get_response_stream (send_message (Scenario.fresh 2048) "hi") (Scenario.reply_with "  ")
  = ([text_complete EmptyString true], send_message (Scenario.fresh 2048) "hi").
Proof.
  apply (kobold_blank_reply (Scenario.fresh 2048) "hi" (Scenario.reply_with "  ")
           {| status := 200; json := inr {| results := Some [Some "  "] |};
              text := inr "  " |}
           {| results := Some [Some "  "] |} "  ");
    reflexivity.
Defined.

End KoboldTurn.

(** ** Configuration resolution *)

Section Resolution.
Import Env Precedence.

Implicit Types (env : gmap string string) (hs : list heuristic).

Local Ltac case_truthy :=
  repeat match goal with
         | |- context [truthy ?o] => destruct (truthy o)
         end.

Lemma config_detect_is_chain env :
  Config.detect_llm_provider env = chain env "LLM_PROVIDER" config_heuristics "openai".
Proof.
  unfold Config.detect_llm_provider, chain, config_heuristics.
  cbn [first_hint fires existsb fst snd]. unfold is_set. by case_truthy.
Qed.

Lemma main_detect_is_chain env :
  Main.detect_llm_provider env = chain env "LLM_PROVIDER" main_heuristics "openai".
Proof.
  unfold Main.detect_llm_provider, chain, main_heuristics.
  cbn [first_hint fires existsb fst snd]. unfold is_set. by case_truthy.
Qed.

Lemma first_hint_none env hs :
  first_hint env hs = None ↔ ∀ h, h ∈ hs → fires env h = false.
Proof.
  induction hs as [|h hs IH]; simpl.
  - split; [|done]. by intros _ h ?%elem_of_nil.
  - destruct (fires env h) eqn:Hf.
    + split; [done|]. intros H. specialize (H h (list_elem_of_here _ _)). congruence.
    + rewrite IH. split.
      * intros H h' [->|?]%elem_of_cons; auto.
      * intros H h' ?. apply H. by apply list_elem_of_further.
Qed.

Lemma first_hint_some env hs name :
  first_hint env hs = Some name → ∃ h, h ∈ hs ∧ fires env h = true ∧ snd h = name.
Proof.
  induction hs as [|h hs IH]; simpl; [done|].
  destruct (fires env h) eqn:Hf.
  - intros [= <-]. exists h. split; [apply list_elem_of_here|done].
  - intros (h' & ? & ?)%IH. exists h'. split; [by apply list_elem_of_further|done].
Qed.

Lemma chain_override env override hs fallback (s : string) :
  env !! override = Some s → s ≠ EmptyString →
  chain env override hs fallback = PyStr.lower s.
Proof.
  intros Hs Hne. unfold chain, is_set, getenv, getenv_default. rewrite Hs. simpl.
  by destruct s.
Qed.

Lemma is_set_some env k (s : string) :
  env !! k = Some s → s ≠ EmptyString → is_set env k = true.
Proof. intros Hs Hne. unfold is_set, getenv. rewrite Hs. by destruct s. Qed.

Lemma is_set_false env k : is_set env k = false → truthy (env !! k) = false.
Proof. done. Qed.

(** C2 (amended). A variable counts as present when it is set to a
    non-empty text. Both resolvers follow the chain: a present
    [LLM_PROVIDER] is returned lower-cased; otherwise a present Ollama hint
    ([OLLAMA_HOST], [OLLAMA_URL], and in [core/config.py] also the generic
    [LLM_API_URL]) gives ["ollama"]; otherwise a present Kobold hint
    ([KOBOLD_URL], and in [core/config.py] also [KOBOLD_HOST]) gives
    ["kobold"]; otherwise ["openai"]. In whatever order the heuristics are
    evaluated, the override beats every hint and a hint beats the default. *)
Theorem provider_precedence_chain env :
  Config.detect_llm_provider env = chain env "LLM_PROVIDER" config_heuristics "openai"
  ∧ Main.detect_llm_provider env = chain env "LLM_PROVIDER" main_heuristics "openai"
  ∧ (∀ s : string, env !! "LLM_PROVIDER" = Some s → s ≠ EmptyString →
       Config.detect_llm_provider env = PyStr.lower s
       ∧ Main.detect_llm_provider env = PyStr.lower s)
  ∧ (∀ hs hs' fallback, hs ≡ₚ hs' →
       (∀ s : string, env !! "LLM_PROVIDER" = Some s → s ≠ EmptyString →
          chain env "LLM_PROVIDER" hs' fallback = PyStr.lower s)
       ∧ (is_set env "LLM_PROVIDER" = false →
          (∃ h, h ∈ hs ∧ fires env h = true) →
          ∃ h, h ∈ hs ∧ fires env h = true
               ∧ chain env "LLM_PROVIDER" hs' fallback = snd h)
       ∧ (is_set env "LLM_PROVIDER" = false →
          (∀ h, h ∈ hs → fires env h = false) →
          chain env "LLM_PROVIDER" hs' fallback = fallback)).
Proof.
  split; [apply config_detect_is_chain|]. split; [apply main_detect_is_chain|].
  split.
  { intros s Hs Hne. rewrite config_detect_is_chain, main_detect_is_chain.
    by rewrite !(chain_override env _ _ _ s Hs Hne). }
  intros hs hs' fallback Hperm. split; [|split].
  - intros s Hs Hne. by apply chain_override.
  - intros Hno (h & Hin & Hf). unfold chain. rewrite Hno.
    destruct (first_hint env hs') as [name|] eqn:E.
    + apply first_hint_some in E as (h' & Hin' & Hf' & <-).
      exists h'. rewrite Hperm. done.
    + exfalso. rewrite first_hint_none in E.
      rewrite Hperm in Hin. specialize (E h Hin). congruence.
  - intros Hno Hnone. unfold chain. rewrite Hno.
    replace (first_hint env hs') with (@None string); [done|].
    symmetry. apply first_hint_none. intros h Hin. apply Hnone. by rewrite Hperm.
Qed.

Lemma provider_precedence_chain_witness :
  Config.detect_llm_provider Scenario.override_env = "kobold"
  ∧ Main.detect_llm_provider Scenario.override_env = "kobold".
Proof.
  apply (proj1 (proj2 (proj2 (provider_precedence_chain Scenario.override_env)))
           "Kobold"); [reflexivity | discriminate].
Defined.

(** C2 as stated fails: with nothing set but the generic [LLM_API_URL], no
    override, no Ollama host or URL variable and no Kobold variable is
    present, yet [core/config.py] answers ["ollama"] and not the default;
    [main.py] answers ["openai"] on the same snapshot, so no one chain
    with one set of hint variables describes both resolvers. *)
Lemma resolvers_disagree_on_generic_url :
  is_set Scenario.generic_url_env "LLM_PROVIDER" = false
  ∧ is_set Scenario.generic_url_env "OLLAMA_HOST" = false
  ∧ is_set Scenario.generic_url_env "OLLAMA_URL" = false
  ∧ is_set Scenario.generic_url_env "KOBOLD_URL" = false
  ∧ Config.detect_llm_provider Scenario.generic_url_env = "ollama"
  ∧ Main.detect_llm_provider Scenario.generic_url_env = "openai"
  ∧ ¬ ∃ hs fallback, ∀ env,
        Config.detect_llm_provider env = chain env "LLM_PROVIDER" hs fallback
        ∧ Main.detect_llm_provider env = chain env "LLM_PROVIDER" hs fallback.
Proof.
  repeat (split; [reflexivity|]).
  intros (hs & fallback & H).
  destruct (H Scenario.generic_url_env) as [Hc Hm].
  rewrite <- Hc in Hm. vm_compute in Hm. discriminate.
Qed.

(** C6 (amended). With no present [LLM_PROVIDER], [OLLAMA_HOST] set to a
    non-empty host, and neither [OLLAMA_URL] nor the generic [LLM_API_URL]
    present, both resolvers select ["ollama"] and the base URL is the host
    itself when it contains ["://"], and ["http://"] followed by the host
    when it does not. *)
Theorem ollama_host_resolution env (host : string) :
  is_set env "LLM_PROVIDER" = false →
  env !! "OLLAMA_HOST" = Some host →
  host ≠ EmptyString →
  is_set env "OLLAMA_URL" = false →
  is_set env "LLM_API_URL" = false →
  Config.provider (Config.load_billy_config_llm env) = "ollama"
  ∧ Config.api_url (Config.load_billy_config_llm env)
    = Some (if PyStr.contains "://" host then host else "http://" +:+ host)
  ∧ Main.provider (Main.load_config_llm env) = "ollama"
  ∧ Main.api_url (Main.load_config_llm env)
    = Some (if PyStr.contains "://" host then host else "http://" +:+ host).
Proof.
  intros Hp Hh Hne Hu Hg.
  pose proof (is_set_some env _ host Hh Hne) as Hhost.
  unfold is_set, getenv in *.
  assert (Hc : Config.detect_llm_provider env = "ollama").
  { unfold Config.detect_llm_provider, getenv. by rewrite Hp, Hhost. }
  assert (Hm : Main.detect_llm_provider env = "ollama").
  { unfold Main.detect_llm_provider, getenv. by rewrite Hp, Hhost. }
  unfold Config.load_billy_config_llm, Main.load_config_llm.
  rewrite Hc, Hm. cbn [String.eqb Ascii.eqb Bool.eqb Config.provider Config.api_url
                       Main.provider Main.api_url].
  split; [done|]. split; [|split; [done|]].
  - unfold Config.get_llm_api_url, getenv, getenv_default.
    cbn [String.eqb Ascii.eqb Bool.eqb]. rewrite Hg, Hu, Hhost, Hh. simpl.
    by destruct (PyStr.contains "://" host).
  - unfold or, getenv, getenv_default. rewrite Hg, Hu. simpl. rewrite Hhost, Hh. simpl.
    destruct (PyStr.contains "://" host); simpl; [by destruct host|done].
Qed.

Lemma ollama_host_resolution_witness :
  Config.api_url (Config.load_billy_config_llm Scenario.ollama_host_env)
    = Some "http://pi.local:11434"
  ∧ Main.api_url (Main.load_config_llm Scenario.ollama_host_env)
    = Some "http://pi.local:11434".
Proof.
  destruct (ollama_host_resolution Scenario.ollama_host_env "pi.local:11434")
    as (_ & Hc & _ & Hm); [reflexivity | reflexivity | discriminate
                           | reflexivity | reflexivity |].
  split; [exact Hc | exact Hm].
Defined.

(** C6 as stated fails: [OLLAMA_HOST] is set, there is no provider override
    and no [OLLAMA_URL], but the generic [LLM_API_URL] is set too. Both
    resolvers select ["ollama"] and take the generic URL, not the host. *)
Lemma generic_url_beats_ollama_host :
  is_set Scenario.ollama_host_and_generic_env "LLM_PROVIDER" = false
  ∧ Scenario.ollama_host_and_generic_env !! "OLLAMA_HOST" = Some "pi.local:11434"
  ∧ Scenario.ollama_host_and_generic_env !! "OLLAMA_URL" = None
  ∧ Config.load_billy_config_llm Scenario.ollama_host_and_generic_env
    = {| Config.provider := "ollama"; Config.model := "llama3.2:latest";
         Config.api_key := None; Config.api_url := Some "http://box:8000" |}
  ∧ Main.load_config_llm Scenario.ollama_host_and_generic_env
    = {| Main.provider := "ollama"; Main.model := "llama3.2:latest";
         Main.api_key := None; Main.api_url := Some "http://box:8000" |}
  ∧ Main.api_url (Main.load_config_llm Scenario.ollama_host_and_generic_env)
    ≠ Some "http://pi.local:11434".
Proof. repeat (split; [reflexivity|]). discriminate. Qed.

End Resolution.

(** ** The factory *)

Section FactoryClaims.
Import Factory.

Lemma registry_get_none {C} (name : string) (registry : list (string * C)) :
  registry_get name registry = None ↔ name ∉ keys registry.
Proof.
  unfold keys. induction registry as [|[k cls] rest IH]; simpl.
  - split; [|done]. intros _ []%elem_of_nil.
  - rewrite not_elem_of_cons. destruct (String.eqb_spec name k) as [->|Hne].
    + split; [done|]. by intros [? _].
    + rewrite IH. split; [by intros ?|by intros [_ ?]].
Qed.

Lemma registry_get_some {C} (name : string) (registry : list (string * C)) :
  name ∈ keys registry → ∃ cls, registry_get name registry = Some cls.
Proof.
  intros Hin. destruct (registry_get name registry) as [cls|] eqn:E; [by exists cls|].
  by apply registry_get_none in E.
Qed.

(** The creation of a provider whose name is not registered. *)
Lemma create_unknown {C} (kind : string) (registry : list (string * C))
    (config : gmap string PyVal) (s : string)
    (initialize : C → gmap string PyVal → string + bool) :
  config !! "provider" = Some (VStr s) →
  PyStr.lower s ∉ keys registry →
  create kind registry config initialize
  = (inl (ValueError ("Unknown " +:+ kind +:+ " provider '" +:+ PyStr.lower s
                      +:+ "'. Available: " +:+ PyStr.str_of_list (keys registry))),
     []).
Proof.
  intros Hs Hnot. unfold create, provider_name. rewrite Hs.
  apply registry_get_none in Hnot. by rewrite Hnot.
Qed.

(** The creation of a provider whose name is registered, in any case. *)
Lemma create_known {C} (kind : string) (registry : list (string * C))
    (config : gmap string PyVal) (s : string)
    (initialize : C → gmap string PyVal → string + bool) :
  config !! "provider" = Some (VStr s) →
  PyStr.lower s ∈ keys registry →
  ∃ cls, registry_get (PyStr.lower s) registry = Some cls
       ∧ snd (create kind registry config initialize)
         = [Instantiated cls; Initialized cls]
       ∧ ∀ msg, fst (create kind registry config initialize) ≠ inl (ValueError msg).
Proof.
  intros Hs Hin. destruct (registry_get_some _ _ Hin) as [cls Hcls].
  exists cls. split; [done|].
  unfold create, provider_name. rewrite Hs, Hcls.
  by destruct (initialize cls config) as [e|[|]].
Qed.

(** C3. A configured provider name that, lower-cased, is no key of the
    registry makes [create_llm_provider] and [create_voice_provider] raise
    the [ValueError] whose text holds that lower-cased name and the list of
    the registered names in order; no provider class is instantiated or
    initialized. The lookup uses the lower-cased name, so a registered name
    in any mix of cases reaches its class. *)
Theorem unknown_provider_rejected (config : gmap string PyVal) (s : string) :
  config !! "provider" = Some (VStr s) →
  (PyStr.lower s ∉ get_available_llm_providers →
   ∀ initialize,
     create_llm_provider config initialize
     = (inl (ValueError ("Unknown LLM provider '" +:+ PyStr.lower s
                         +:+ "'. Available: ['openai', 'ollama', 'kobold']")), []))
  ∧ (PyStr.lower s ∉ get_available_voice_providers →
     ∀ initialize,
       create_voice_provider config initialize
       = (inl (ValueError ("Unknown Voice provider '" +:+ PyStr.lower s
                           +:+ "'. Available: ['openai', 'chatterai', 'xtt']")), []))
  ∧ (PyStr.lower s ∈ get_available_llm_providers →
     ∀ initialize,
       ∃ cls, registry_get (PyStr.lower s) LLM_PROVIDERS = Some cls
            ∧ snd (create_llm_provider config initialize)
              = [Instantiated cls; Initialized cls]
            ∧ ∀ msg, fst (create_llm_provider config initialize) ≠ inl (ValueError msg))
  ∧ (PyStr.lower s ∈ get_available_voice_providers →
     ∀ initialize,
       ∃ cls, registry_get (PyStr.lower s) VOICE_PROVIDERS = Some cls
            ∧ snd (create_voice_provider config initialize)
              = [Instantiated cls; Initialized cls]
            ∧ ∀ msg, fst (create_voice_provider config initialize) ≠ inl (ValueError msg)).
Proof.
  intros Hs. split; [|split; [|split]].
  - intros Hnot initialize.
    exact (create_unknown "LLM" LLM_PROVIDERS config s initialize Hs Hnot).
  - intros Hnot initialize.
    exact (create_unknown "Voice" VOICE_PROVIDERS config s initialize Hs Hnot).
  - intros Hin initialize. by apply create_known.
  - intros Hin initialize. by apply create_known.
Qed.

Lemma unknown_provider_rejected_witness :
  create_llm_provider Scenario.claude_config Scenario.always_ready
  = (inl (ValueError
            "Unknown LLM provider 'claude'. Available: ['openai', 'ollama', 'kobold']"),
     []).
Proof.
  refine (proj1 (unknown_provider_rejected Scenario.claude_config "Claude" _) _ _).
  - reflexivity.
  - vm_compute. intros H.
    repeat (apply elem_of_cons in H as [H|H]; [discriminate|]).
    by apply elem_of_nil in H.
Defined.

End FactoryClaims.

(** ** Voice parameters *)

Section VoiceClaims.
Import Voice.

(** C7 (amended). The voice and the speed sent to the backend are the values
    under the [voice] and [speed] keys of [voice_params] whenever the keys
    are there, passed on unchanged whether or not the provider lists them;
    a default is used only for a missing key: ["ash"] for OpenAI, the
    configured model for ChatterAI and XTT, and the speed [1.0]. The call
    returns the audio exactly on a status 200 answer and raises otherwise. *)
Theorem voice_params_passed_through
    (text : string) (voice_params : gmap string PyVal) :
  (∀ self : OpenAIVoiceProvider,
     (∀ v, voice_params !! "voice" = Some v →
           oa_voice (openai_payload self text voice_params) = v)
     ∧ (voice_params !! "voice" = None →
        oa_voice (openai_payload self text voice_params) = VStr "ash")
     ∧ (∀ v, voice_params !! "speed" = Some v →
             oa_speed (openai_payload self text voice_params) = v)
     ∧ (voice_params !! "speed" = None →
        oa_speed (openai_payload self text voice_params) = VFloat 1)
     ∧ ∀ backend audio,
         openai_text_to_speech self text voice_params backend = inr audio
         ↔ ∃ resp, backend (openai_payload self text voice_params) = inr resp
                   ∧ status resp = 200 ∧ body resp = audio)
  ∧ (∀ self : ServerVoiceProvider,
       (∀ v, voice_params !! "voice" = Some v →
             sp_voice (server_payload self text voice_params) = v)
       ∧ (voice_params !! "voice" = None →
          sp_voice (server_payload self text voice_params) = VStr (model self))
       ∧ (∀ v, voice_params !! "speed" = Some v →
               sp_speed (server_payload self text voice_params) = v)
       ∧ (voice_params !! "speed" = None →
          sp_speed (server_payload self text voice_params) = VFloat 1)
       ∧ ∀ backend audio,
           (chatterai_text_to_speech self text voice_params backend = inr audio
            ↔ ∃ resp, backend (server_payload self text voice_params) = inr resp
                      ∧ status resp = 200 ∧ body resp = audio)
           ∧ (xtt_text_to_speech self text voice_params backend = inr audio
              ↔ ∃ resp, backend (server_payload self text voice_params) = inr resp
                        ∧ status resp = 200 ∧ body resp = audio)).
Proof.
  assert (Hex : ∀ {P} (who : string) (payload : P) backend audio,
             exchange who payload backend = inr audio
             ↔ ∃ resp, backend payload = inr resp ∧ status resp = 200
                       ∧ body resp = audio).
  { intros P who payload backend audio. unfold exchange.
    destruct (backend payload) as [e|resp].
    - split; [done|]. by intros (? & ? & _).
    - destruct (Z.eqb_spec (status resp) 200) as [Hs|Hs].
      + split.
        * intros [= <-]. by exists resp.
        * intros (r & [= <-] & _ & <-). done.
      + split; [done|]. intros (r & [= <-] & ? & _). done. }
  split; intros self; simpl.
  - repeat split; try (intros v ->; done); try (intros ->; done); apply Hex.
  - repeat split; try (intros v ->; done); try (intros ->; done); apply Hex.
Qed.

Lemma voice_params_passed_through_witness :
  oa_voice (openai_payload Scenario.openai_voice "Hello" Scenario.bogus_voice_params)
  = VStr "bogus".
Proof.
  apply (proj1 (proj1 (voice_params_passed_through "Hello" Scenario.bogus_voice_params)
                  Scenario.openai_voice)).
  reflexivity.
Defined.

(** C7 as stated fails: the voice ["bogus"] is not among the voices the
    OpenAI provider lists, yet it is what the request carries, not the
    default ["ash"]; against a server that rejects unknown voices the call
    raises. *)
Lemma unrecognized_voice_is_sent :
  recognized openai_get_supported_voices (VStr "bogus") = false
  ∧ oa_voice (openai_payload Scenario.openai_voice "Hello" Scenario.bogus_voice_params)
    = VStr "bogus"
  ∧ oa_voice (openai_payload Scenario.openai_voice "Hello" Scenario.bogus_voice_params)
    ≠ VStr "ash"
  ∧ openai_text_to_speech Scenario.openai_voice "Hello" Scenario.bogus_voice_params
      Scenario.strict_openai_backend
    = inl "OpenAI TTS error 400: invalid voice".
Proof.
  split; [by vm_compute|]. split; [reflexivity|]. split; [|reflexivity].
  vm_compute. discriminate.
Qed.

End VoiceClaims.

(** ** The streaming consumption loop *)

Section StreamingClaims.
Import Main StreamView.

Lemma streaming_loop_well_formed (acc : string) (chunks : list ResponseChunk) :
  well_formed chunks = true →
  snd (streaming_loop acc chunks)
    = (if existsb is_error chunks then None else Some (acc +:+ concat_deltas chunks))
  ∧ fragments (fst (streaming_loop acc chunks)) = delta_texts chunks
  ∧ shown_error (fst (streaming_loop acc chunks)) = error_message chunks
  ∧ voice_input (fst (streaming_loop acc chunks)) = None.
Proof.
  revert acc. induction chunks as [|c rest IH]; intros acc Hwf.
  - simpl. by rewrite string_app_nil_r.
  - destruct c as [t d|t d|m]; simpl in Hwf.
    + assert (Hrest : well_formed rest = true) by (destruct d, rest; done).
      destruct (IH (acc +:+ t) Hrest) as (Hs & Hf & He & Hv).
      cbn [streaming_loop].
      destruct (streaming_loop (acc +:+ t) rest) as [acts r] eqn:E.
      cbn [fst snd] in *.
      change (fragments (Fragment t :: acts)) with (t :: fragments acts).
      change (shown_error (Fragment t :: acts)) with (shown_error acts).
      change (voice_input (Fragment t :: acts)) with (voice_input acts).
      change (delta_texts (text_delta t d :: rest)) with (t :: delta_texts rest).
      change (error_message (text_delta t d :: rest)) with (error_message rest).
      change (existsb is_error (text_delta t d :: rest)) with (existsb is_error rest).
      change (concat_deltas (text_delta t d :: rest)) with (t +:+ concat_deltas rest).
      rewrite Hs, Hf, He, Hv. split; [|done].
      destruct (existsb is_error rest); [done|].
      by rewrite string_app_assoc.
    + destruct d.
      * destruct rest; [|done]. simpl. by rewrite string_app_nil_r.
      * destruct (IH acc Hwf) as (Hs & Hf & He & Hv). simpl.
        rewrite Hs, Hf, He, Hv. done.
    + destruct rest; [|done]. done.
Qed.

Lemma error_message_exists (chunks : list ResponseChunk) :
  existsb is_error chunks = negb (bool_decide (error_message chunks = None)).
Proof.
  unfold error_message. induction chunks as [|[t d|t d|m] rest IH]; simpl; done.
Qed.

Lemma concat_deltas_texts (chunks : list ResponseChunk) :
  concat_deltas chunks = foldr String.append EmptyString (delta_texts chunks).
Proof.
  unfold concat_deltas, delta_texts.
  induction chunks as [|[t d|t d|m] rest IH]; simpl; [done| |done|done].
  by rewrite IH.
Qed.

(** The actions of the handler, from those of its loop. *)
Lemma handler_actions (chunks : list ResponseChunk) :
  voice_input (fst (streaming_loop EmptyString chunks)) = None →
  fragments (_handle_streaming_response chunks)
    = fragments (fst (streaming_loop EmptyString chunks))
  ∧ shown_error (_handle_streaming_response chunks)
    = shown_error (fst (streaming_loop EmptyString chunks))
  ∧ voice_input (_handle_streaming_response chunks)
    = match snd (streaming_loop EmptyString chunks) with
      | None => None
      | Some complete_text =>
          if PyStr.truthy (PyStr.strip complete_text)
          then Some (PyStr.strip complete_text) else None
      end.
Proof.
  unfold _handle_streaming_response, fragments, shown_error, voice_input.
  destruct (streaming_loop EmptyString chunks) as [acts r]. cbn [fst snd].
  intros Hv.
  destruct (omap _ acts) as [|v vs] eqn:Ev in Hv; [|done].
  destruct r as [complete_text|];
    [destruct (PyStr.truthy (PyStr.strip complete_text))|];
    match goal with
    | |- context [(Banner :: acts ++ ?tl)%list] =>
        change (Banner :: acts ++ tl)%list with ([Banner] ++ acts ++ tl)%list
    end;
    rewrite !omap_app, Ev; simpl; by rewrite ?app_nil_r.
Qed.

Lemma well_formed_settled (chunks : list ResponseChunk) :
  well_formed chunks = true → settled chunks = true.
Proof.
  induction chunks as [|[t d|t d|m] rest IH]; simpl; [done| | |done].
  - destruct d; [by destruct rest|done].
  - destruct d; [by destruct rest|done].
Qed.

Lemma only_deltas_and_errors_settled (chunks : list ResponseChunk) :
  forallb (λ c, match c with text_complete _ _ => false | _ => true end) chunks = true →
  settled chunks = true.
Proof.
  induction chunks as [|[t d|t d|m] rest IH]; simpl; [done| |done|done].
  exact IH.
Qed.

Lemma string_app_cancel_l (a c : string) : a +:+ c = a → c = EmptyString.
Proof.
  induction a as [|x a IH]; [done|]. rewrite string_app_cons. intros [= H]. auto.
Qed.

(** The loop on a settled stream. *)
Lemma streaming_loop_settled (acc : string) (chunks : list ResponseChunk) :
  settled chunks = true →
  snd (streaming_loop acc chunks)
    = (if existsb is_error chunks then None else Some (acc +:+ concat_deltas chunks))
  ∧ shown_error (fst (streaming_loop acc chunks)) = error_message chunks
  ∧ voice_input (fst (streaming_loop acc chunks)) = None.
Proof.
  revert acc. induction chunks as [|c rest IH]; intros acc Hs.
  - simpl. by rewrite string_app_nil_r.
  - destruct c as [t d|t d|m].
    + destruct (IH (acc +:+ t) Hs) as (Hr & He & Hv).
      cbn [streaming_loop].
      destruct (streaming_loop (acc +:+ t) rest) as [acts r] eqn:E.
      cbn [fst snd] in *.
      change (shown_error (Fragment t :: acts)) with (shown_error acts).
      change (voice_input (Fragment t :: acts)) with (voice_input acts).
      change (error_message (text_delta t d :: rest)) with (error_message rest).
      change (existsb is_error (text_delta t d :: rest)) with (existsb is_error rest).
      change (concat_deltas (text_delta t d :: rest)) with (t +:+ concat_deltas rest).
      rewrite Hr, He, Hv. split; [|done].
      destruct (existsb is_error rest); [done|].
      by rewrite string_app_assoc.
    + change (existsb is_error (text_complete t d :: rest))
        with (existsb is_error rest).
      change (error_message (text_complete t d :: rest)) with (error_message rest).
      change (concat_deltas (text_complete t d :: rest))
        with (EmptyString +:+ concat_deltas rest).
      rewrite string_app_nil_l. destruct d.
      * cbn [settled] in Hs. apply andb_prop in Hs as [Hne Hc].
        apply negb_true_iff in Hne. apply negb_true_iff in Hc.
        pose proof (error_message_exists rest) as Hex. rewrite Hne in Hex.
        symmetry in Hex. apply negb_false_iff, bool_decide_eq_true in Hex.
        rewrite Hne, Hex. cbn [streaming_loop fst snd].
        destruct (concat_deltas rest); [|done]. by rewrite string_app_nil_r.
      * cbn [streaming_loop]. by apply IH.
    + done.
Qed.

(** Outside the settled streams the loop does not read the whole stream:
    its result differs from what the whole stream would give. *)
Lemma streaming_loop_unsettled (acc : string) (chunks : list ResponseChunk) :
  settled chunks = false →
  snd (streaming_loop acc chunks)
  ≠ (if existsb is_error chunks then None else Some (acc +:+ concat_deltas chunks)).
Proof.
  revert acc. induction chunks as [|c rest IH]; intros acc Hs; [done|].
  destruct c as [t d|t d|m]; [| |done].
  - cbn [streaming_loop]. specialize (IH (acc +:+ t) Hs).
    destruct (streaming_loop (acc +:+ t) rest) as [acts r]. cbn [fst snd] in *.
    change (existsb is_error (text_delta t d :: rest)) with (existsb is_error rest).
    change (concat_deltas (text_delta t d :: rest)) with (t +:+ concat_deltas rest).
    by rewrite <- string_app_assoc.
  - change (existsb is_error (text_complete t d :: rest))
      with (existsb is_error rest).
    change (concat_deltas (text_complete t d :: rest))
      with (EmptyString +:+ concat_deltas rest).
    rewrite string_app_nil_l. destruct d.
    + cbn [settled] in Hs. cbn [streaming_loop fst snd].
      destruct (existsb is_error rest); [done|]. cbn [negb andb] in Hs.
      apply negb_false_iff in Hs. intros [= H]. symmetry in H.
      apply string_app_cancel_l in H. rewrite H in Hs. done.
    + cbn [streaming_loop]. by apply IH.
Qed.

(** C8. In the streaming consumption loop, for every finite chunk sequence
    of a provider (one that keeps the chunk invariant, or more generally one
    that is [settled]): the texts of the incremental chunks are appended to
    the accumulator in emission order; if an error chunk appears the turn is
    left with the error shown, the accumulated text is given up and no voice
    is synthesized; otherwise, after the last chunk, voice synthesis is
    requested exactly when the accumulated text is non-empty after [strip],
    and its input is the stripped concatenation of all incremental texts. *)
Theorem streaming_turn_accumulates_and_speaks (chunks : list ResponseChunk) :
  settled chunks = true →
  concat_deltas chunks = foldr String.append EmptyString (delta_texts chunks)
  ∧ (existsb is_error chunks = true →
     snd (streaming_loop EmptyString chunks) = None
     ∧ shown_error (_handle_streaming_response chunks) = error_message chunks
     ∧ error_message chunks ≠ None
     ∧ voice_input (_handle_streaming_response chunks) = None)
  ∧ (existsb is_error chunks = false →
     snd (streaming_loop EmptyString chunks) = Some (concat_deltas chunks)
     ∧ shown_error (_handle_streaming_response chunks) = None
     ∧ voice_input (_handle_streaming_response chunks)
       = (if PyStr.truthy (PyStr.strip (concat_deltas chunks))
          then Some (PyStr.strip (concat_deltas chunks)) else None)).
Proof.
  intros Hset.
  destruct (streaming_loop_settled EmptyString chunks Hset) as (Hs & He & Hv).
  destruct (handler_actions chunks Hv) as (_ & He' & Hv').
  rewrite He', Hv', Hs, He.
  split; [apply concat_deltas_texts|].
  pose proof (error_message_exists chunks) as Hex.
  split; intros Herr; rewrite Herr in Hex |- *.
  - split; [done|]. split; [done|]. split; [|done].
    intros Hnone. by rewrite bool_decide_eq_true_2 in Hex.
  - rewrite string_app_nil_l. split; [done|]. split; [|done].
    symmetry in Hex. apply negb_false_iff, bool_decide_eq_true in Hex. done.
Qed.

Lemma streaming_turn_accumulates_and_speaks_witness :
  voice_input (_handle_streaming_response Scenario.plain_stream) = Some "Hi there".
Proof.
  destruct (streaming_turn_accumulates_and_speaks Scenario.plain_stream)
    as (_ & _ & H); [reflexivity|].
  exact (proj2 (proj2 (H ltac:(reflexivity)))).
Defined.

(** A stream that breaks the chunk invariant, with chunks after the chunk
    flagged [done], is not settled: the loop leaves at that chunk and what
    follows is not read. *)
Example chunks_after_done_are_not_read :
  well_formed Scenario.stream_past_done = false
  ∧ settled Scenario.stream_past_done = false
  ∧ _handle_streaming_response Scenario.stream_past_done
    = [Banner; Fragment "Hi "; NewLine; GenerateVoice "Hi"].
Proof. repeat split; reflexivity. Qed.

End StreamingClaims.


(** * Further properties of the code *)

(** ** Stripping *)

Section Strip.

Lemma lstrip_head (s : string) :
  match PyStr.lstrip s with
  | EmptyString => PyStr.blank s = true
  | String c _ => PyStr.isspace c = false ∧ PyStr.blank s = false
  end.
Proof.
  induction s as [|c s IH]; simpl; [done|].
  destruct (PyStr.isspace c) eqn:Ec; simpl; [|by rewrite Ec].
  destruct (PyStr.lstrip s); [done|]. done.
Qed.

Lemma rstrip_cons (c : ascii) (s : string) :
  PyStr.isspace c = false → PyStr.rstrip (String c s) = String c (PyStr.rstrip s).
Proof. intros Hc. simpl. rewrite Hc. by destruct (PyStr.rstrip s). Qed.

Lemma lstrip_cons (c : ascii) (s : string) :
  PyStr.isspace c = false → PyStr.lstrip (String c s) = String c s.
Proof. intros Hc. simpl. by rewrite Hc. Qed.

Lemma rstrip_idempotent (s : string) : PyStr.rstrip (PyStr.rstrip s) = PyStr.rstrip s.
Proof.
  induction s as [|c s IH]; [done|]. simpl.
  destruct (PyStr.rstrip s) as [|d r] eqn:E.
  - destruct (PyStr.isspace c) eqn:Ec; [done|]. simpl. by rewrite Ec.
  - change (PyStr.rstrip (String c (String d r)))
      with (match PyStr.rstrip (String d r) with
            | EmptyString => if PyStr.isspace c then EmptyString
                             else String c EmptyString
            | x => String c x
            end).
    by rewrite IH.
Qed.

(** [s.strip().strip() == s.strip()] *)
Lemma strip_idempotent (s : string) : PyStr.strip (PyStr.strip s) = PyStr.strip s.
Proof.
  unfold PyStr.strip. pose proof (lstrip_head s) as H.
  destruct (PyStr.lstrip s) as [|c t]; [done|]. destruct H as [Hc _].
  rewrite (rstrip_cons c t Hc), (lstrip_cons c _ Hc), <- (rstrip_cons c t Hc).
  apply rstrip_idempotent.
Qed.

(** [bool(s.strip())] is false exactly for blank text. *)
Lemma strip_truthy (s : string) : PyStr.truthy (PyStr.strip s) = negb (PyStr.blank s).
Proof.
  unfold PyStr.strip. pose proof (lstrip_head s) as H.
  destruct (PyStr.lstrip s) as [|c t]; [by rewrite H|]. destruct H as [Hc ->].
  by rewrite (rstrip_cons c t Hc).
Qed.

Lemma truthy_nonempty (s : string) : PyStr.truthy s = true ↔ s ≠ EmptyString.
Proof. by destruct s. Qed.

End Strip.

(** ** More on the Kobold provider *)

Section KoboldMore.
Import Kobold.

Local Abbreviation join := (PyStr.join PyStr.nl).

(** What [complete] yields, with the shape of its text. *)
Lemma complete_trimmed (p : KoboldProvider) (raw : string) :
  ∃ t, complete p raw
       = ([text_complete t true],
          if PyStr.blank raw then p
          else with_history p (conversation_history p ++ ["Assistant: " +:+ t]))
     ∧ PyStr.strip t = t
     ∧ (PyStr.blank raw = true → t = EmptyString).
Proof.
  unfold complete. rewrite strip_truthy.
  destruct (PyStr.blank raw) eqn:Eb; cbn [negb].
  - exists EmptyString. rewrite (strip_blank raw Eb). done.
  - destruct (PyStr.startswith "Assistant:" (PyStr.strip raw)).
    + eexists. split; [reflexivity|]. split; [apply strip_idempotent|done].
    + eexists. split; [reflexivity|]. split; [apply strip_idempotent|done].
Qed.

(** X1. The text of a chunk yielded by the Kobold provider never has
    leading or trailing whitespace: stripping it changes nothing. *)
Theorem kobold_text_is_trimmed
    (p : KoboldProvider) (backend : Payload → BackendOutcome) (t : string) (d : bool) :
  text_complete t d ∈ fst (get_response_stream p backend) →
  PyStr.strip t = t ∧ d = true.
Proof.
  destruct (get_response_stream_cases p backend)
    as [[m ->]|(resp & data & raw & _ & _ & _ & _ & ->)]; simpl.
  - intros [H|H%elem_of_nil]%elem_of_cons; [discriminate|done].
  - destruct (complete_trimmed p raw) as (t' & -> & Ht & _). simpl.
    intros [[= -> ->]|H%elem_of_nil]%elem_of_cons; done.
Qed.

Lemma kobold_text_is_trimmed_witness :
  PyStr.strip "Blub." = "Blub." ∧ true = true.
Proof.
  apply (kobold_text_is_trimmed (send_message (Scenario.fresh 2048) "hi")
           (Scenario.reply_with "  Assistant:  Blub.
") "Blub." true).
  vm_compute. apply list_elem_of_here.
Defined.

Lemma last_split_lines_app (a b : string) :
  PyStr.single_line b = true →
  last (PyStr.split_lines (a +:+ String PyStr.newline b)) = Some b.
Proof.
  intros Hb. induction a as [|c a IH].
  - rewrite string_app_nil_l. simpl. by rewrite (split_single_line b Hb).
  - rewrite string_app_cons. simpl.
    pose proof (split_lines_app_nl_length a b) as Hlen.
    destruct (PyStr.split_lines (a +:+ String PyStr.newline b)) as [|l [|l' ls]];
      [simpl in Hlen; lia ..|].
    by destruct (Ascii.eqb c PyStr.newline).
Qed.

Lemma last_drop {A} (k : nat) (l : list A) :
  (k < length l)%nat → last (drop k l) = last l.
Proof.
  revert k. induction l as [|x l IH]; intros [|k] Hk; simpl in *; try done; try lia.
  rewrite IH by lia. destruct l; [simpl in Hk; lia|done].
Qed.

Lemma join_drop_length (k : nat) (ls : list string) :
  (String.length (join (drop k ls)) ≤ String.length (join ls))%nat.
Proof.
  revert k. induction ls as [|x ls IH]; intros [|k]; try done.
  change (drop (S k) (x :: ls)) with (drop k ls).
  etrans; [apply IH|]. destruct ls as [|y ls]; [simpl; lia|].
  rewrite join_cons, !string_app_length. lia.
Qed.

(** X2. The prompt that is sent always ends with the line ["Assistant:"],
    truncated or not, and is never longer than the serialized history. *)
Theorem prompt_keeps_the_cue (p : KoboldProvider) :
  last (PyStr.split_lines (build_prompt p)) = Some "Assistant:"
  ∧ PyStr.len (build_prompt p) ≤ PyStr.len (serialize (conversation_history p)).
Proof.
  unfold build_prompt.
  set (h := conversation_history p). set (m := max_context p).
  assert (Hlast : last (PyStr.split_lines (serialize h)) = Some "Assistant:").
  { unfold serialize. by apply last_split_lines_app. }
  destruct (over_budget m (serialize h)) eqn:Ho.
  - rewrite truncated_prompt_lines by done.
    destruct (truncate_lines_drop m (PyStr.split_lines (serialize h)))
      as (k & Hk & _ & _).
    pose proof (truncate_lines_floor m _ (serialize_lines_length h)) as Hfloor.
    unfold truncate_prompt. rewrite Ho, Hk in *. rewrite length_drop in Hfloor.
    split.
    + rewrite last_drop by lia. done.
    + unfold PyStr.len. apply inj_le.
      rewrite <- (join_split (serialize h)) at 2. apply join_drop_length.
  - rewrite truncate_prompt_within by done. split; [done|lia].
Qed.

End KoboldMore.

(** ** Turns of the orchestrator with a Kobold provider *)

Section Turns.
Import Kobold Main Orchestrator HistoryView StreamView.

Implicit Types (p : KoboldProvider) (backend : Payload → BackendOutcome).

Local Abbreviation user m := ("User: " +:+ m).

(** The three ways a Kobold turn can go. *)
Lemma respond_cases p (message : string) backend :
  (∃ m, respond p message backend
        = (send_message p message, [ShowError m]))
  ∨ (∃ raw, PyStr.blank raw = true
            ∧ respond p message backend = (send_message p message, []))
  ∨ (∃ t, PyStr.strip t = t
          ∧ respond p message backend
            = (with_history p
                 (conversation_history p ++ [user message; "Assistant: " +:+ t]),
               if PyStr.truthy t then [ShowText t; GenerateVoice t] else [])).
Proof.
  unfold respond. cbn [get_model_type].
  destruct (get_response_stream_cases (send_message p message) backend)
    as [[m ->]|(resp & data & raw & _ & _ & _ & _ & ->)].
  - left. by exists m.
  - right. destruct (complete_trimmed (send_message p message) raw) as (t & -> & Ht & Hb).
    destruct (PyStr.blank raw) eqn:Eb.
    + left. exists raw. split; [done|]. rewrite (Hb eq_refl). done.
    + right. exists t. split; [done|].
      cbn [_handle_complete_response]. rewrite Ht, app_nil_r.
      unfold with_history, send_message. cbn. by rewrite <- app_assoc.
Qed.

Lemma reply_text_trimmed (raw : string) :
  PyStr.strip (reply_text raw) = reply_text raw.
Proof.
  unfold reply_text.
  destruct (PyStr.startswith "Assistant:" (PyStr.strip raw)); apply strip_idempotent.
Qed.

(** What [complete] does with a reply, by the reply. *)
Lemma complete_by_reply p (raw : string) :
  complete p raw
  = if PyStr.blank raw then ([text_complete EmptyString true], p)
    else ([text_complete (reply_text raw) true],
          with_history p
            (conversation_history p ++ ["Assistant: " +:+ reply_text raw])).
Proof.
  unfold complete, reply_text. rewrite strip_truthy.
  destruct (PyStr.blank raw) eqn:Eb; cbn [negb]; [|done].
  by rewrite (strip_blank raw Eb).
Qed.

(** A turn answered with status 200 and the text [raw]. *)
Lemma respond_to_reply p (message : string) backend
    (resp : Response) (data : ReplyData) (raw : string) :
  backend (build_payload (send_message p message)) = inr resp →
  status resp = 200 →
  json resp = inr data →
  first_text data = inr raw →
  respond p message backend
  = if PyStr.blank raw then (send_message p message, [])
    else (with_history p
            (conversation_history p
             ++ [user message; "Assistant: " +:+ reply_text raw]),
          if PyStr.truthy (reply_text raw)
          then [ShowText (reply_text raw); GenerateVoice (reply_text raw)] else []).
Proof.
  intros Hb Hs Hj Hf. unfold respond. cbn [get_model_type].
  unfold get_response_stream. rewrite Hb, Hs, Hj, Hf. cbn [Z.eqb Pos.eqb].
  rewrite complete_by_reply. destruct (PyStr.blank raw); [done|].
  cbn [_handle_complete_response]. rewrite reply_text_trimmed, app_nil_r.
  unfold with_history, send_message. cbn. by rewrite <- app_assoc.
Qed.

(** X3. A turn of the orchestrator with a Kobold provider does one of three
    things: it shows one error, or it does nothing visible, or it shows the
    reply and requests voice for it. Voice is requested only for a non-empty
    reply that has no surrounding whitespace, and then the history ends
    with the user's message followed by that reply. The user's message is
    recorded in every case. By the answer of the server: a transport
    exception or a status other than 200 gives the error; a blank reply
    gives nothing and records nothing but the user's message; any other
    reply is recorded as ["Assistant: "] followed by its cleaned text and is
    shown and voiced exactly when that text is not empty; so a reply that
    is only the echoed ["Assistant:"] is recorded as ["Assistant: "] and is
    neither shown nor voiced. *)
Theorem kobold_turn_actions p (message : string) backend :
  ((∃ m, snd (respond p message backend) = [ShowError m]
         ∧ conversation_history (fst (respond p message backend))
           = (conversation_history p ++ [user message])%list)
   ∨ (snd (respond p message backend) = []
      ∧ (conversation_history (fst (respond p message backend))
           = (conversation_history p ++ [user message])%list
         ∨ conversation_history (fst (respond p message backend))
           = (conversation_history p ++ [user message; "Assistant: "])%list))
   ∨ (∃ t, t ≠ EmptyString ∧ PyStr.strip t = t
           ∧ snd (respond p message backend) = [ShowText t; GenerateVoice t]
           ∧ conversation_history (fst (respond p message backend))
             = (conversation_history p ++ [user message; "Assistant: " +:+ t])%list))
  ∧ (∀ e, backend (build_payload (send_message p message)) = inl e →
       respond p message backend
       = (send_message p message,
          [ShowError ("Connection error to Kobold server: " +:+ e)]))
  ∧ (∀ resp error_text,
       backend (build_payload (send_message p message)) = inr resp →
       status resp ≠ 200 →
       text resp = inr error_text →
       respond p message backend
       = (send_message p message,
          [ShowError ("Kobold server error " +:+ PyStr.of_int (status resp)
                      +:+ ": " +:+ error_text)]))
  ∧ (∀ resp data raw,
       backend (build_payload (send_message p message)) = inr resp →
       status resp = 200 →
       json resp = inr data →
       first_text data = inr raw →
       (PyStr.blank raw = true →
        respond p message backend = (send_message p message, []))
       ∧ (PyStr.blank raw = false →
          respond p message backend
          = (with_history p
               (conversation_history p
                ++ [user message; "Assistant: " +:+ reply_text raw]),
             if PyStr.truthy (reply_text raw)
             then [ShowText (reply_text raw); GenerateVoice (reply_text raw)]
             else []))
       ∧ (PyStr.strip raw = "Assistant:" →
          respond p message backend
          = (with_history p
               (conversation_history p ++ [user message; "Assistant: "]), []))).
Proof.
  split; [|split; [|split]].
  - destruct (respond_cases p message backend)
      as [[m ->]|[(raw & _ & ->)|(t & Ht & ->)]].
    + left. by exists m.
    + right. left. split; [done|]. by left.
    + right. destruct t as [|c t].
      * left. split; [done|]. by right.
      * right. exists (String c t). done.
  - intros e Hb. unfold respond. cbn [get_model_type].
    unfold get_response_stream. by rewrite Hb.
  - intros resp error_text Hb Hs Ht. unfold respond. cbn [get_model_type].
    unfold get_response_stream. rewrite Hb, Ht.
    by apply Z.eqb_neq in Hs as ->.
  - intros resp data raw Hb Hs Hj Hf.
    pose proof (respond_to_reply p message backend resp data raw Hb Hs Hj Hf) as Hr.
    split; [|split].
    + intros Hblank. by rewrite Hblank in Hr.
    + intros Hblank. by rewrite Hblank in Hr.
    + intros Hstrip.
      assert (Hblank : PyStr.blank raw = false).
      { apply negb_true_iff. rewrite <- strip_truthy, Hstrip. done. }
      assert (Ht : reply_text raw = EmptyString).
      { unfold reply_text. rewrite Hstrip. reflexivity. }
      by rewrite Hblank, Ht in Hr.
Qed.

Lemma kobold_turn_actions_witness :
  respond (Scenario.fresh 2048) "hi" (Scenario.reply_with " Assistant: ")
  = (with_history (Scenario.fresh 2048) ["User: hi"; "Assistant: "], []).
Proof.
  destruct (kobold_turn_actions (Scenario.fresh 2048) "hi"
              (Scenario.reply_with " Assistant: ")) as (_ & _ & _ & H).
  destruct (H {| status := 200; json := inr {| results := Some [Some " Assistant: "] |};
                 text := inr " Assistant: " |}
              {| results := Some [Some " Assistant: "] |} " Assistant: ")
    as (_ & _ & Hprefix); [reflexivity ..|].
  apply Hprefix. reflexivity.
Defined.

(** The entries a turn appends. *)
Lemma respond_history p (message : string) backend :
  ∃ tail, conversation_history (fst (respond p message backend))
          = (conversation_history p ++ user message :: tail)%list
        ∧ (tail = [] ∨ ∃ t, tail = ["Assistant: " +:+ t]).
Proof.
  destruct (respond_cases p message backend)
    as [[m ->]|[(raw & _ & ->)|(t & Ht & ->)]].
  - exists []. split; [done|by left].
  - exists []. split; [done|by left].
  - exists ["Assistant: " +:+ t]. split; [done|]. right. by exists t.
Qed.

Lemma process_all_active p (turns : list (string * (Payload → BackendOutcome))) :
  ∃ p' ext,
    fst (process_all {| llm_provider := Some p; session_active := true |} turns)
    = {| llm_provider := Some p'; session_active := true |}
    ∧ conversation_history p' = (conversation_history p ++ ext)%list
    ∧ filter (λ e, is_user_entry e = true) ext = (λ t, user (fst t)) <$> turns
    ∧ Forall tagged ext
    ∧ (length turns ≤ length ext ≤ 2 * length turns)%nat.
Proof.
  revert p. induction turns as [|[message backend] rest IH]; intros p.
  - exists p, []. rewrite app_nil_r. repeat split; simpl; try done; lia.
  - cbn [process_all]. unfold process_user_input. cbn [session_active llm_provider].
    destruct (respond p message backend) as [p1 acts] eqn:E.
    destruct (respond_history p message backend) as (tail & Hh & Htail).
    rewrite E in Hh. cbn [fst] in Hh.
    destruct (IH p1) as (p' & ext & Hrun & Hext & Hfilter & Htag & Hlen).
    destruct (process_all _ rest) as [a2 log]. cbn [fst] in Hrun |- *.
    exists p', (user message :: tail ++ ext)%list. split; [done|].
    rewrite Hext, Hh, <- app_assoc. split; [done|].
    destruct Htail as [->|[t ->]].
    + split; [|split].
      * rewrite filter_cons_True by done. simpl. by rewrite Hfilter.
      * constructor; [by left|done].
      * simpl. lia.
    + split; [|split].
      * rewrite filter_cons_True by done. simpl.
        rewrite filter_cons_False by done. by rewrite Hfilter.
      * constructor; [by left|]. constructor; [by right|done].
      * simpl. lia.
Qed.

(** X4. From an assistant whose session is not yet active, any non-empty
    run of inputs starts one session (whatever the provider remembered
    before is dropped) and leaves a history whose ["User: "] entries are
    exactly the submitted messages in order; every entry is a user or an
    assistant entry, and there are between one and two entries per input. *)
Theorem session_history_records_inputs
    p (turns : list (string * (Payload → BackendOutcome))) :
  turns ≠ [] →
  session_active
    (fst (process_all {| llm_provider := Some p; session_active := false |} turns))
  = true
  ∧ filter (λ e, is_user_entry e = true)
      (history (fst (process_all {| llm_provider := Some p; session_active := false |}
                       turns)))
    = (λ t, user (fst t)) <$> turns
  ∧ Forall (λ e, is_user_entry e = true ∨ is_assistant_entry e = true)
      (history (fst (process_all {| llm_provider := Some p; session_active := false |}
                       turns)))
  ∧ (length turns
     ≤ length (history (fst (process_all
                               {| llm_provider := Some p; session_active := false |}
                               turns)))
     ≤ 2 * length turns)%nat.
Proof.
  destruct turns as [|[message backend] rest]; [done|]. intros _.
  assert (Hstart :
    process_all {| llm_provider := Some p; session_active := false |}
      ((message, backend) :: rest)
    = process_all {| llm_provider := Some (with_history p []); session_active := true |}
        ((message, backend) :: rest)) by done.
  rewrite Hstart.
  destruct (process_all_active (with_history p []) ((message, backend) :: rest))
    as (p' & ext & -> & Hext & Hfilter & Htag & Hlen).
  unfold history. cbn [llm_provider session_active]. rewrite Hext. simpl app.
  done.
Qed.

Lemma session_history_records_inputs_witness :
  filter (λ e, is_user_entry e = true)
    (history (fst (process_all
                     {| llm_provider := Some Scenario.short_session;
                        session_active := false |}
                     [("one", Scenario.reply_with "1"); ("two", Scenario.reply_with "2")])))
  = ["User: one"; "User: two"].
Proof.
  apply (session_history_records_inputs Scenario.short_session
           [("one", Scenario.reply_with "1"); ("two", Scenario.reply_with "2")]).
  discriminate.
Defined.

End Turns.

(** ** The response handlers on arbitrary streams *)

Section Handlers.
Import Main StreamView.

Lemma streaming_loop_log (acc : string) (chunks : list ResponseChunk) :
  voice_inputs (fst (streaming_loop acc chunks)) = []
  ∧ match snd (streaming_loop acc chunks) with
    | None => ∃ m, shown_errors (fst (streaming_loop acc chunks)) = [m]
    | Some _ => shown_errors (fst (streaming_loop acc chunks)) = []
    end.
Proof.
  revert acc. induction chunks as [|[t d|t d|m] rest IH]; intros acc.
  - done.
  - cbn [streaming_loop]. specialize (IH (acc +:+ t)).
    destruct (streaming_loop (acc +:+ t) rest) as [acts r]. exact IH.
  - cbn [streaming_loop]. destruct d; [done|]. apply IH.
  - split; [done|]. by exists m.
Qed.

(** X5. Whatever the stream, the streaming handler requests voice at most
    once, only for a text that is non-empty and has no surrounding
    whitespace, and never in a turn in which it shows an error; it shows at
    most one error. *)
Theorem streaming_handler_speaks_or_reports (chunks : list ResponseChunk) :
  (voice_inputs (_handle_streaming_response chunks) = []
   ∧ (length (shown_errors (_handle_streaming_response chunks)) ≤ 1)%nat)
  ∨ (∃ t, voice_inputs (_handle_streaming_response chunks) = [t]
          ∧ t ≠ EmptyString ∧ PyStr.strip t = t
          ∧ shown_errors (_handle_streaming_response chunks) = []).
Proof.
  unfold _handle_streaming_response.
  destruct (streaming_loop_log EmptyString chunks) as [Hv He].
  destruct (streaming_loop EmptyString chunks) as [acts r]. cbn [fst snd] in *.
  unfold voice_inputs, shown_errors in *.
  change (Banner :: ?l)%list with ([Banner] ++ l)%list.
  rewrite !omap_app, Hv.
  destruct r as [complete_text|].
  - rewrite He.
    destruct (PyStr.truthy (PyStr.strip complete_text)) eqn:Et.
    + right. exists (PyStr.strip complete_text).
      split; [done|]. split; [by apply truthy_nonempty|].
      split; [apply strip_idempotent|done].
    + left. split; [done|]. simpl. lia.
  - destruct He as [m ->]. left. split; [done|]. simpl. lia.
Qed.

(** X6. The handler of complete responses goes through the whole stream:
    it requests voice for every complete chunk whose text is not blank, with
    the text as it is, and shows the message of every error chunk, both in
    stream order; an error does not end the turn. *)
Theorem complete_handler_covers_the_stream (chunks : list ResponseChunk) :
  voice_inputs (_handle_complete_response chunks) = spoken_texts chunks
  ∧ shown_errors (_handle_complete_response chunks) = error_messages chunks.
Proof.
  unfold voice_inputs, shown_errors, spoken_texts, error_messages.
  induction chunks as [|[t d|t d|m] rest [IHv IHe]]; [done|done| |].
  - cbn [_handle_complete_response]. rewrite !omap_app, IHv, IHe.
    rewrite strip_truthy. by destruct (PyStr.blank t) eqn:Eb; simpl; rewrite ?Eb.
  - cbn [_handle_complete_response].
    change (ShowError m :: ?l)%list with ([ShowError m] ++ l)%list.
    by rewrite !omap_app, IHv, IHe.
Qed.

End Handlers.

(** ** From the environment to the factory *)

Section ConfigToFactory.
Import Env Factory.

Implicit Types (env : gmap string string) (config : gmap string PyVal).

Lemma llm_config_provider (c : Main.LLMConfig) (t : Q) (m : Z) :
  Main.llm_config c t m !! "provider" = Some (VStr (Main.provider c)).
Proof. reflexivity. Qed.

Lemma voice_config_provider (c : Main.VoiceConfig) (speed : Q) :
  Main.voice_config c speed !! "provider" = Some (VStr (Main.voice_provider c)).
Proof. reflexivity. Qed.

Lemma main_llm_provider_cases env :
  Main.provider (Main.load_config_llm env) = "openai"
  ∨ Main.provider (Main.load_config_llm env) = "ollama"
  ∨ Main.provider (Main.load_config_llm env) = "kobold".
Proof.
  unfold Main.load_config_llm.
  destruct (String.eqb (Main.detect_llm_provider env) "openai"); [by left|].
  destruct (String.eqb (Main.detect_llm_provider env) "ollama"); [by right; left|].
  destruct (String.eqb (Main.detect_llm_provider env) "kobold"); [by right; right|].
  by left.
Qed.

Lemma main_voice_provider_cases env :
  Main.voice_provider (Main.load_config_voice env) = "openai"
  ∨ Main.voice_provider (Main.load_config_voice env) = "chatterai"
  ∨ Main.voice_provider (Main.load_config_voice env) = "xtt".
Proof.
  unfold Main.load_config_voice.
  destruct (String.eqb (Main.detect_voice_provider env) "openai"); [by left|].
  destruct (String.eqb (Main.detect_voice_provider env) "chatterai"); [by right; left|].
  destruct (String.eqb (Main.detect_voice_provider env) "xtt"); [by right; right|].
  by left.
Qed.

(** Creation when the configured name is registered. *)
Lemma create_registered {C} (kind : string) (registry : list (string * C))
    config (name : string) (initialize : C → gmap string PyVal → string + bool) :
  provider_name config = inr name →
  name ∈ keys registry →
  ∃ cls, registry_get name registry = Some cls
       ∧ snd (create kind registry config initialize)
         = [Instantiated cls; Initialized cls]
       ∧ ∀ msg, fst (create kind registry config initialize) ≠ inl (ValueError msg).
Proof.
  intros Hn Hin. destruct (registry_get_some _ _ Hin) as [cls Hcls].
  exists cls. split; [done|]. unfold create. rewrite Hn, Hcls.
  by destruct (initialize cls config) as [e|[|]].
Qed.

(** X7. The configuration [main.py] loads always names a registered
    provider, for the language model and for the voice, whatever the
    environment holds (an unknown override is replaced by ["openai"]); so the
    factory never raises the unknown-provider error for it and always
    instantiates and initializes a provider class. *)
Theorem main_config_names_registered_providers
    env (temperature speed : Q) (max_tokens : Z) :
  Main.provider (Main.load_config_llm env) ∈ get_available_llm_providers
  ∧ Main.voice_provider (Main.load_config_voice env) ∈ get_available_voice_providers
  ∧ (∀ initialize,
       (∃ cls, snd (create_llm_provider
                      (Main.llm_config (Main.load_config_llm env) temperature max_tokens)
                      initialize)
               = [Instantiated cls; Initialized cls])
       ∧ ∀ msg, fst (create_llm_provider
                       (Main.llm_config (Main.load_config_llm env) temperature max_tokens)
                       initialize)
                ≠ inl (ValueError msg))
  ∧ (∀ initialize,
       (∃ cls, snd (create_voice_provider
                      (Main.voice_config (Main.load_config_voice env) speed) initialize)
               = [Instantiated cls; Initialized cls])
       ∧ ∀ msg, fst (create_voice_provider
                       (Main.voice_config (Main.load_config_voice env) speed) initialize)
                ≠ inl (ValueError msg)).
Proof.
  assert (Hl : PyStr.lower (Main.provider (Main.load_config_llm env))
               ∈ get_available_llm_providers
               ∧ Main.provider (Main.load_config_llm env) ∈ get_available_llm_providers).
  { destruct (main_llm_provider_cases env) as [-> | [-> | ->]];
      split; vm_compute; repeat constructor. }
  assert (Hv : PyStr.lower (Main.voice_provider (Main.load_config_voice env))
               ∈ get_available_voice_providers
               ∧ Main.voice_provider (Main.load_config_voice env)
                 ∈ get_available_voice_providers).
  { destruct (main_voice_provider_cases env) as [-> | [-> | ->]];
      split; vm_compute; repeat constructor. }
  split; [apply Hl|]. split; [apply Hv|]. split; intros initialize.
  - destruct (create_registered "LLM" LLM_PROVIDERS
                (Main.llm_config (Main.load_config_llm env) temperature max_tokens)
                (PyStr.lower (Main.provider (Main.load_config_llm env))) initialize)
      as (cls & _ & Ht & Hne).
    + unfold provider_name. by rewrite llm_config_provider.
    + apply Hl.
    + split; [by exists cls|done].
  - destruct (create_registered "Voice" VOICE_PROVIDERS
                (Main.voice_config (Main.load_config_voice env) speed)
                (PyStr.lower (Main.voice_provider (Main.load_config_voice env)))
                initialize)
      as (cls & _ & Ht & Hne).
    + unfold provider_name. by rewrite voice_config_provider.
    + apply Hv.
    + split; [by exists cls|done].
Qed.

Lemma not_registered_llm (name : string) :
  name ∉ get_available_llm_providers →
  String.eqb name "openai" = false ∧ String.eqb name "ollama" = false
  ∧ String.eqb name "kobold" = false.
Proof.
  intros Hn. repeat split; apply String.eqb_neq; intros ->; apply Hn;
    vm_compute; repeat constructor.
Qed.

(** X8. In [main.py] an [LLM_PROVIDER] that names no registered provider
    does not reach the factory: the loaded configuration is the bare OpenAI
    one, without key or URL. With the OpenAI provider's own [initialize]
    the factory then raises the failed-initialization error for ["openai"],
    after instantiating the OpenAI class. *)
Theorem unknown_override_becomes_openai env (s : string) :
  env !! "LLM_PROVIDER" = Some s →
  s ≠ EmptyString →
  PyStr.lower s ∉ get_available_llm_providers →
  Main.load_config_llm env
  = {| Main.provider := "openai"; Main.model := "gpt-4o-mini-realtime-preview";
       Main.api_key := None; Main.api_url := None |}
  ∧ ∀ (temperature : Q) (max_tokens : Z) initialize,
      (∀ config, initialize OpenAIProvider config = snd (OpenAI.initialize config)) →
      create_llm_provider
        (Main.llm_config (Main.load_config_llm env) temperature max_tokens) initialize
      = (inl (ConnectionError "Failed to initialize LLM provider 'openai'"),
         [Instantiated OpenAIProvider; Initialized OpenAIProvider]).
Proof.
  intros Hs Hne Hnot.
  assert (Hd : Main.detect_llm_provider env = PyStr.lower s).
  { unfold Main.detect_llm_provider, getenv, getenv_default. rewrite Hs. simpl.
    by destruct s. }
  destruct (not_registered_llm _ Hnot) as (H1 & H2 & H3).
  assert (Hc : Main.load_config_llm env
               = {| Main.provider := "openai";
                    Main.model := "gpt-4o-mini-realtime-preview";
                    Main.api_key := None; Main.api_url := None |}).
  { unfold Main.load_config_llm. by rewrite Hd, H1, H2, H3. }
  split; [done|]. intros temperature max_tokens initialize Hinit. rewrite Hc.
  unfold create_llm_provider, create, provider_name.
  rewrite llm_config_provider. cbn [Main.provider].
  change (registry_get (PyStr.lower "openai") LLM_PROVIDERS) with (Some OpenAIProvider).
  cbv iota. rewrite Hinit. reflexivity.
Qed.

Lemma unknown_override_becomes_openai_witness :
  Main.load_config_llm {[ "LLM_PROVIDER" := "Claude" ]}
  = {| Main.provider := "openai"; Main.model := "gpt-4o-mini-realtime-preview";
       Main.api_key := None; Main.api_url := None |}.
Proof.
  refine (proj1 (unknown_override_becomes_openai
                   ({[ "LLM_PROVIDER" := "Claude" ]} : gmap string string)
                   "Claude" _ _ _)).
  - reflexivity.
  - discriminate.
  - vm_compute. intros H.
    repeat (apply elem_of_cons in H as [H|H]; [discriminate|]).
    by apply elem_of_nil in H.
Defined.

(** X9. The two resolvers compute the same base URL: for Ollama always,
    and it is never empty; for Kobold whenever [LLM_API_URL] is not set to
    the empty text ([main.py] takes an empty [LLM_API_URL] as the URL,
    [core/config.py] skips it). *)
Theorem resolvers_agree_on_base_url env :
  (Main.detect_llm_provider env = "ollama" →
   Main.api_url (Main.load_config_llm env) = Config.get_llm_api_url env "ollama"
   ∧ ∃ u, Config.get_llm_api_url env "ollama" = Some u ∧ u ≠ EmptyString)
  ∧ (Main.detect_llm_provider env = "kobold" →
     env !! "LLM_API_URL" ≠ Some EmptyString →
     Main.api_url (Main.load_config_llm env) = Config.get_llm_api_url env "kobold").
Proof.
  split.
  - intros Hd. unfold Main.load_config_llm. rewrite Hd.
    cbn [String.eqb Ascii.eqb Bool.eqb Main.api_url].
    unfold Config.get_llm_api_url. cbn [String.eqb Ascii.eqb Bool.eqb].
    unfold or, getenv, getenv_default.
    generalize (PyStr.contains "://"). intros has_scheme.
    destruct (env !! "LLM_API_URL") as [[|a u]|]; simpl;
      (destruct (env !! "OLLAMA_URL") as [[|b v]|]; simpl);
      (destruct (env !! "OLLAMA_HOST") as [[|c h]|]; simpl);
      try (split; [done|]; eexists; split; [done|done]);
      destruct (has_scheme (String c h)); simpl;
      (split; [done|]; eexists; split; [done|done]).
  - intros Hd Hne. unfold Main.load_config_llm. rewrite Hd.
    cbn [String.eqb Ascii.eqb Bool.eqb Main.api_url].
    unfold Config.get_llm_api_url. cbn [String.eqb Ascii.eqb Bool.eqb].
    unfold or, getenv, getenv_default.
    by destruct (env !! "LLM_API_URL") as [[|a u]|].
Qed.

Lemma resolvers_agree_on_base_url_witness :
  Main.api_url (Main.load_config_llm Scenario.ollama_host_env)
  = Config.get_llm_api_url Scenario.ollama_host_env "ollama".
Proof.
  apply (proj1 (resolvers_agree_on_base_url Scenario.ollama_host_env)).
  reflexivity.
Defined.

(** X10. The resolvers of [core/config.py] and of [main.py] select the same
    language-model provider whenever neither [LLM_API_URL] nor [KOBOLD_HOST]
    is present, and the same voice provider whenever neither
    [VOICE_API_URL] nor [XTT_HOST] is present. *)
Theorem resolvers_agree_on_provider env :
  (is_set env "LLM_API_URL" = false → is_set env "KOBOLD_HOST" = false →
   Config.detect_llm_provider env = Main.detect_llm_provider env)
  ∧ (is_set env "VOICE_API_URL" = false → is_set env "XTT_HOST" = false →
     Config.detect_voice_provider env = Main.detect_voice_provider env).
Proof.
  unfold is_set. split; intros H1 H2.
  - unfold Config.detect_llm_provider, Main.detect_llm_provider.
    by rewrite H1, H2, !orb_false_r.
  - unfold Config.detect_voice_provider, Main.detect_voice_provider.
    by rewrite H1, H2, !andb_false_l, !orb_false_r.
Qed.

Lemma resolvers_agree_on_provider_witness :
  Config.detect_llm_provider Scenario.override_env
  = Main.detect_llm_provider Scenario.override_env.
Proof.
  apply (proj1 (resolvers_agree_on_provider Scenario.override_env)); reflexivity.
Defined.

(** X11. When [VOICE] is not set, the voice [main.py] configures is one the
    selected voice provider lists. *)
Theorem default_voice_is_listed env :
  env !! "VOICE" = None →
  Main.voice (Main.load_config_voice env)
  ∈ StreamView.supported_voices (Main.voice_provider (Main.load_config_voice env)).
Proof.
  intros Hv. unfold Main.load_config_voice, getenv_default. rewrite Hv.
  destruct (String.eqb (Main.detect_voice_provider env) "openai");
    [vm_compute; repeat constructor|].
  destruct (String.eqb (Main.detect_voice_provider env) "chatterai");
    [vm_compute; repeat constructor|].
  destruct (String.eqb (Main.detect_voice_provider env) "xtt");
    vm_compute; repeat constructor.
Qed.

Lemma default_voice_is_listed_witness :
  Main.voice (Main.load_config_voice {[ "CHATTERAI_API_KEY" := "k" ]})
  ∈ StreamView.supported_voices
      (Main.voice_provider (Main.load_config_voice {[ "CHATTERAI_API_KEY" := "k" ]})).
Proof.
  apply (default_voice_is_listed ({[ "CHATTERAI_API_KEY" := "k" ]} : gmap string string)).
  reflexivity.
Defined.

(** X12. A configuration that [validate_llm_config] (or
    [validate_voice_config]) accepts names a registered provider: creating
    the provider never raises the unknown-provider error, and exactly one
    class is instantiated and initialized. *)
Theorem validated_config_is_registered config :
  (validate_llm_config config = inr true →
   ∀ initialize,
     (∃ cls, snd (create_llm_provider config initialize)
             = [Instantiated cls; Initialized cls])
     ∧ ∀ msg, fst (create_llm_provider config initialize) ≠ inl (ValueError msg))
  ∧ (validate_voice_config config = inr true →
     ∀ initialize,
       (∃ cls, snd (create_voice_provider config initialize)
               = [Instantiated cls; Initialized cls])
       ∧ ∀ msg, fst (create_voice_provider config initialize) ≠ inl (ValueError msg)).
Proof.
  split; intros Hval initialize.
  - unfold validate_llm_config in Hval.
    destruct (provider_name config) as [e|name] eqn:Hn; [done|].
    assert (Hin : name ∈ keys LLM_PROVIDERS).
    { destruct (String.eqb_spec name "openai") as [->|_]; [vm_compute; repeat constructor|].
      destruct (String.eqb_spec name "ollama") as [->|_]; [vm_compute; repeat constructor|].
      destruct (String.eqb_spec name "kobold") as [->|_]; [vm_compute; repeat constructor|].
      done. }
    destruct (create_registered "LLM" LLM_PROVIDERS config name initialize Hn Hin)
      as (cls & _ & Ht & Hne).
    split; [by exists cls|done].
  - unfold validate_voice_config in Hval.
    destruct (provider_name config) as [e|name] eqn:Hn; [done|].
    assert (Hin : name ∈ keys VOICE_PROVIDERS).
    { destruct (String.eqb_spec name "openai") as [->|_]; [vm_compute; repeat constructor|].
      destruct (String.eqb_spec name "chatterai") as [->|_];
        [vm_compute; repeat constructor|].
      destruct (String.eqb_spec name "xtt") as [->|_]; [vm_compute; repeat constructor|].
      done. }
    destruct (create_registered "Voice" VOICE_PROVIDERS config name initialize Hn Hin)
      as (cls & _ & Ht & Hne).
    split; [by exists cls|done].
Qed.

Lemma validated_config_is_registered_witness :
  ∃ cls,
    snd (create_llm_provider {[ "provider" := VStr "Kobold"; "api_url" := VStr "http://k" ]}
           Scenario.always_ready)
    = [Instantiated cls; Initialized cls].
Proof.
  refine (proj1 (proj1 (validated_config_is_registered
                          ({[ "provider" := VStr "Kobold"; "api_url" := VStr "http://k" ]}
                           : gmap string PyVal)) _ Scenario.always_ready)).
  reflexivity.
Defined.

(** X13. For the OpenAI language-model provider validation predicts
    initialization: when the configured model is a text or is missing,
    [initialize] returns the flag [validate_llm_config] returns, the truth
    value of the configured key; without a key it returns [False] whatever
    the model entry is. *)
Theorem openai_validation_predicts_initialize config :
  provider_name config = inr "openai" →
  (val_truthy (dict_get config "api_key") = false →
   snd (OpenAI.initialize config) = inr false
   ∧ validate_llm_config config = inr false)
  ∧ ((∀ v, config !! "model" = Some v → ∃ s, v = VStr s) →
     snd (OpenAI.initialize config) = inr (val_truthy (dict_get config "api_key"))
     ∧ validate_llm_config config = inr (val_truthy (dict_get config "api_key"))).
Proof.
  intros Hn.
  assert (Hval : validate_llm_config config
                 = inr (val_truthy (dict_get config "api_key"))).
  { unfold validate_llm_config. by rewrite Hn. }
  rewrite Hval. unfold OpenAI.initialize. cbn [snd OpenAI.api_key OpenAI.model].
  split.
  - intros Hk. by rewrite Hk.
  - intros Hm. split; [|done].
    destruct (val_truthy (dict_get config "api_key")); [|done]. cbn [negb].
    unfold dict_get_default.
    destruct (config !! "model") as [v|] eqn:Ev; [|done].
    destruct (Hm v eq_refl) as [s ->]. done.
Qed.

Lemma openai_validation_predicts_initialize_witness :
  snd (OpenAI.initialize {[ "provider" := VStr "OpenAI"; "api_key" := VStr "sk-1" ]})
  = inr true.
Proof.
  refine (proj1 (proj2 (openai_validation_predicts_initialize
                          ({[ "provider" := VStr "OpenAI"; "api_key" := VStr "sk-1" ]}
                           : gmap string PyVal) _) _)).
  - reflexivity.
  - intros v Hv. vm_compute in Hv. discriminate.
Defined.

End ConfigToFactory.

(** ** Initialization of the providers *)

Section Initialization.
Import Env Voice.

Implicit Types (env : gmap string string) (config : gmap string PyVal).

Lemma read_voice_config (c : Main.VoiceConfig) (speed : Q) :
  openai_read_config (Main.voice_config c speed)
  = {| f_api_key := of_opt (Main.voice_api_key c);
       f_api_url := of_opt (Main.voice_api_url c);
       f_model := VStr (Main.voice_model c);
       f_organization := VNone;
       f_project_id := VNone |}.
Proof. reflexivity. Qed.

(** X14. Without an API key (missing, [None] or empty) the OpenAI and the
    ChatterAI voice providers report failure whatever the server would
    answer. The XTT provider needs no key: it probes
    [{api_url}/api/v1/voices] without an authorization header and succeeds
    exactly when the answer has status 200 and a body that decodes. *)
Theorem voice_initialize_without_key config :
  val_truthy (dict_get config "api_key") = false →
  (∀ backend, openai_initialize config backend = Some (openai_read_config config, false))
  ∧ (∀ backend,
       chatterai_initialize config backend
       = Some (server_read_config "https://api.chatterai.com" "natural" config, false))
  ∧ (∀ backend base,
       py_str (dict_get_default config "api_url" (VStr "http://localhost:8080"))
       = Some base →
       xtt_initialize config backend
       = Some (server_read_config "http://localhost:8080" "default" config,
               voices_probe_ok
                 (backend {| url := base +:+ "/api/v1/voices"; headers := [] |}))).
Proof.
  intros Hk. split; [|split].
  - intros backend. unfold openai_initialize. cbn [openai_read_config f_api_key].
    by rewrite Hk.
  - intros backend. unfold chatterai_initialize. cbn [server_read_config s_api_key].
    by rewrite Hk.
  - intros backend base Hb. unfold xtt_initialize.
    cbn [server_read_config s_api_key s_api_url]. rewrite Hk, Hb. reflexivity.
Qed.

Lemma voice_initialize_without_key_witness :
  openai_initialize {[ "provider" := VStr "openai"; "api_key" := VNone ]}
    (λ _, inr {| answer_status := 200; answer_decodes := true |})
  = Some (openai_read_config {[ "provider" := VStr "openai"; "api_key" := VNone ]},
          false).
Proof.
  refine (proj1 (voice_initialize_without_key
                   ({[ "provider" := VStr "openai"; "api_key" := VNone ]}
                    : gmap string PyVal) _)
            (λ _, inr {| answer_status := 200; answer_decodes := true |})).
  vm_compute. reflexivity.
Defined.

(** X15. The voice providers report success only after a probe that the
    server answered with status 200 (and, for ChatterAI and XTT, a body that
    decodes); OpenAI and ChatterAI moreover only with a key. *)
Theorem voice_initialize_success_means_probe_ok config
    (backend : Request → string + ProbeAnswer) :
  (∀ self, openai_initialize config backend = Some (self, true) →
     val_truthy (dict_get config "api_key") = true
     ∧ ∃ request answer,
         openai_probe self = Some request ∧ backend request = inr answer
         ∧ answer_status answer = 200)
  ∧ (∀ self, chatterai_initialize config backend = Some (self, true) →
       val_truthy (dict_get config "api_key") = true
       ∧ ∃ request answer,
           backend request = inr answer ∧ answer_status answer = 200
           ∧ answer_decodes answer = true)
  ∧ (∀ self, xtt_initialize config backend = Some (self, true) →
       ∃ request answer,
         backend request = inr answer ∧ answer_status answer = 200
         ∧ answer_decodes answer = true).
Proof.
  assert (Hok : ∀ outcome, voices_probe_ok outcome = true →
            ∃ answer, outcome = inr answer ∧ answer_status answer = 200
                      ∧ answer_decodes answer = true).
  { intros [e|answer]; simpl; [done|].
    intros [Hs Hd]%andb_prop. exists answer. by apply Z.eqb_eq in Hs. }
  split; [|split]; intros self.
  - unfold openai_initialize. cbn [openai_read_config f_api_key].
    destruct (val_truthy (dict_get config "api_key")); cbn [negb]; [|done].
    destruct (openai_probe _) as [request|] eqn:Ep; simpl; [|done].
    destruct (backend request) as [e|answer] eqn:Eb; [done|].
    intros [= <- Hs]. split; [done|]. exists request, answer.
    by apply Z.eqb_eq in Hs.
  - unfold chatterai_initialize. cbn [server_read_config s_api_key s_api_url].
    destruct (val_truthy (dict_get config "api_key")); cbn [negb]; [|done].
    destruct (py_str (dict_get config "api_key")) as [key|]; simpl; [|done].
    destruct (py_str (dict_get_default config "api_url" _)) as [base|]; simpl; [|done].
    intros [= _ Hs]. split; [done|].
    destruct (Hok _ Hs) as (answer & ? & ? & ?). by eexists _, answer.
  - unfold xtt_initialize. cbn [server_read_config s_api_key s_api_url].
    destruct (if val_truthy (dict_get config "api_key") then _ else _) as [hdrs|];
      simpl; [|done].
    destruct (py_str (dict_get_default config "api_url" _)) as [base|]; simpl; [|done].
    intros [= _ Hs].
    destruct (Hok _ Hs) as (answer & ? & ? & ?). by eexists _, answer.
Qed.

Lemma voice_initialize_success_means_probe_ok_witness :
  ∃ request answer,
    (λ _ : Request, inr {| answer_status := 200; answer_decodes := true |}
       : string + ProbeAnswer) request
    = inr answer
    ∧ answer_status answer = 200 ∧ answer_decodes answer = true.
Proof.
  apply (proj2 (proj2 (voice_initialize_success_means_probe_ok
                         ({[ "provider" := VStr "xtt" ]} : gmap string PyVal)
                         (λ _, inr {| answer_status := 200; answer_decodes := true |})))
           (server_read_config "http://localhost:8080" "default"
              {[ "provider" := VStr "xtt" ]})).
  reflexivity.
Defined.

(** X16. Through the dictionary [main.py] builds, the OpenAI voice provider
    never uses its built-in default endpoint: the dictionary always has an
    [api_url] entry, so with a key the probe goes to the configured URL
    followed by ["/models"], and to ["None/models"] when the configuration
    has no URL; for the OpenAI voice that URL is [OPENAI_VOICE_API_URL]. *)
Theorem orchestrator_openai_voice_probe
    (c : Main.VoiceConfig) (speed : Q) (key : string)
    (backend : Request → string + ProbeAnswer) :
  Main.voice_api_key c = Some key →
  key ≠ EmptyString →
  openai_initialize (Main.voice_config c speed) backend
  = Some (openai_read_config (Main.voice_config c speed),
          match backend
                  {| url := default "None" (Main.voice_api_url c) +:+ "/models";
                     headers := [("Authorization", VStr ("Bearer " +:+ key));
                                 ("Content-Type", VStr "application/json")] |} with
          | inl _ => false
          | inr answer => answer_status answer =? 200
          end)
  ∧ ∀ env, Main.detect_voice_provider env = "openai" →
           Main.voice_api_url (Main.load_config_voice env)
           = env !! "OPENAI_VOICE_API_URL".
Proof.
  intros Hk Hne. split.
  - unfold openai_initialize. rewrite read_voice_config.
    cbn [f_api_key]. rewrite Hk. cbn [of_opt val_truthy].
    destruct key as [|a key]; [done|]. cbn [PyStr.truthy negb].
    unfold openai_probe. cbn [f_api_key f_api_url f_organization f_project_id
                              py_str val_truthy mbind option_bind].
    by destruct (Main.voice_api_url c).
  - intros env Hd. unfold Main.load_config_voice. by rewrite Hd.
Qed.

Lemma orchestrator_openai_voice_probe_witness :
  openai_initialize
    (Main.voice_config (Main.load_config_voice {[ "OPENAI_API_KEY" := "sk-1" ]}) 1)
    (λ request, if String.eqb (url request) "None/models"
                then inl "invalid URL"
                else inr {| answer_status := 200; answer_decodes := true |})
  = Some (openai_read_config
            (Main.voice_config (Main.load_config_voice {[ "OPENAI_API_KEY" := "sk-1" ]}) 1),
          false).
Proof.
  refine (proj1 (orchestrator_openai_voice_probe
                   (Main.load_config_voice {[ "OPENAI_API_KEY" := "sk-1" ]}) 1 "sk-1"
                   (λ request, if String.eqb (url request) "None/models"
                               then inl "invalid URL"
                               else inr {| answer_status := 200;
                                           answer_decodes := true |}) _ _)).
  - reflexivity.
  - discriminate.
Defined.

(** X17. Initialized from the dictionary [main.py] builds, a Kobold provider
    takes the URL, the temperature and the token limit of the configuration,
    keeps its history, and always gets the context budget 2048: the
    dictionary has no [max_context] entry. The flag is [True] exactly when
    the probe of [{api_url}/api/v1/model] answers 200 with a body that
    decodes. *)
Theorem kobold_initialize_from_orchestrator
    env (p : Kobold.KoboldProvider) (temperature : Q) (max_tokens : Z)
    (backend : string → string + Kobold.ProbeResponse) :
  Main.detect_llm_provider env = "kobold" →
  ∃ (base : string) (flag : bool),
    Main.api_url (Main.load_config_llm env) = Some base
    ∧ Kobold.initialize p
        (Main.llm_config (Main.load_config_llm env) temperature max_tokens) backend
      = Some ({| Kobold.api_url := base; Kobold.temperature := temperature;
                 Kobold.max_tokens := max_tokens; Kobold.max_context := 2048;
                 Kobold.conversation_history := Kobold.conversation_history p |},
              flag)
    ∧ (flag = true
       ↔ ∃ resp body, backend (base +:+ "/api/v1/model") = inr resp
                      ∧ Kobold.probe_status resp = 200
                      ∧ Kobold.probe_json resp = inr body).
Proof.
  intros Hd. unfold Main.load_config_llm. rewrite Hd.
  cbn [String.eqb Ascii.eqb Bool.eqb Main.api_url].
  set (base := getenv_default env "LLM_API_URL" _).
  exists base. eexists. split; [done|]. split; [reflexivity|].
  destruct (backend (base +:+ "/api/v1/model")) as [e|resp].
  - split; [done|]. by intros (? & ? & ? & _).
  - destruct (Z.eqb_spec (Kobold.probe_status resp) 200) as [Hs|Hs].
    + destruct (Kobold.probe_json resp) as [e|body] eqn:Ej.
      * split; [done|]. intros (r & b & [= <-] & _ & Hj). congruence.
      * split; [|done]. intros _. by exists resp, body.
    + split; [done|]. intros (r & b & [= <-] & ? & _). done.
Qed.

Lemma kobold_initialize_from_orchestrator_witness :
  ∃ (base : string) (flag : bool),
    Main.api_url (Main.load_config_llm {[ "KOBOLD_URL" := "http://k:5000" ]}) = Some base
    ∧ Kobold.initialize (Scenario.fresh 64)
        (Main.llm_config (Main.load_config_llm {[ "KOBOLD_URL" := "http://k:5000" ]})
           (7 # 10) 150)
        (λ _, inl "refused")
      = Some ({| Kobold.api_url := base; Kobold.temperature := 7 # 10;
                 Kobold.max_tokens := 150; Kobold.max_context := 2048;
                 Kobold.conversation_history := [] |}, flag)
    ∧ (flag = true
       ↔ ∃ resp body, (λ _ : string, inl "refused" : string + Kobold.ProbeResponse)
                        (base +:+ "/api/v1/model") = inr resp
                      ∧ Kobold.probe_status resp = 200
                      ∧ Kobold.probe_json resp = inr body).
Proof.
  apply (kobold_initialize_from_orchestrator
           ({[ "KOBOLD_URL" := "http://k:5000" ]} : gmap string string)
           (Scenario.fresh 64) (7 # 10) 150 (λ _, inl "refused")).
  reflexivity.
Defined.

End Initialization.

(** ** More on resolution and creation *)

Section ResolutionMore.
Import Env Factory Voice.

Implicit Types (env : gmap string string) (config : gmap string PyVal).

(** X18. In [core/config.py], without a present override the resolved
    language-model and voice providers are registered ones. A present
    [LLM_PROVIDER] that names no registered provider is kept, lower-cased,
    with the model and the key of OpenAI and no URL. *)
Theorem config_resolution_without_and_with_unknown_override env :
  (is_set env "LLM_PROVIDER" = false →
   Config.detect_llm_provider env ∈ get_available_llm_providers)
  ∧ (is_set env "VOICE_PROVIDER" = false →
     Config.detect_voice_provider env ∈ get_available_voice_providers)
  ∧ (∀ s : string,
       env !! "LLM_PROVIDER" = Some s → s ≠ EmptyString →
       PyStr.lower s ∉ get_available_llm_providers →
       Config.load_billy_config_llm env
       = {| Config.provider := PyStr.lower s;
            Config.model := Config.OPENAI_MODEL env;
            Config.api_key := Some (Config.OPENAI_API_KEY env);
            Config.api_url := None |}).
Proof.
  unfold is_set. split; [|split].
  - intros Hp. unfold Config.detect_llm_provider. rewrite Hp.
    destruct (_ || _ || _); [vm_compute; repeat constructor|].
    destruct (_ || _); vm_compute; repeat constructor.
  - intros Hp. unfold Config.detect_voice_provider. rewrite Hp.
    destruct (_ || _ && _); [vm_compute; repeat constructor|].
    destruct (_ || _ || _ && _); vm_compute; repeat constructor.
  - intros s Hs Hne Hnot.
    assert (Hd : Config.detect_llm_provider env = PyStr.lower s).
    { unfold Config.detect_llm_provider, getenv, getenv_default. rewrite Hs. simpl.
      by destruct s. }
    destruct (not_registered_llm _ Hnot) as (H1 & H2 & H3).
    unfold Config.load_billy_config_llm, Config.get_llm_model, Config.get_llm_api_key,
      Config.get_llm_api_url.
    by rewrite Hd, H1, H2, H3.
Qed.

Lemma config_resolution_without_and_with_unknown_override_witness :
  Config.detect_llm_provider Scenario.generic_url_env ∈ get_available_llm_providers.
Proof.
  apply (proj1 (config_resolution_without_and_with_unknown_override
                  Scenario.generic_url_env)).
  reflexivity.
Defined.

(** X19. The voice parameters the orchestrator builds always hold both
    keys, so the defaults of the providers are never used on that path: the
    request carries the configured voice and the configured speed. *)
Theorem orchestrator_voice_params_are_complete
    (c : Main.VoiceConfig) (speed : Q) (text : string) :
  (∀ self : OpenAIVoiceProvider,
     oa_voice (openai_payload self text (Main.voice_params c speed)) = VStr (Main.voice c)
     ∧ oa_speed (openai_payload self text (Main.voice_params c speed)) = VFloat speed)
  ∧ (∀ self : ServerVoiceProvider,
       sp_voice (server_payload self text (Main.voice_params c speed))
       = VStr (Main.voice c)
       ∧ sp_speed (server_payload self text (Main.voice_params c speed)) = VFloat speed).
Proof. split; intros self; split; reflexivity. Qed.

(** X20. The factory returns a provider only after its [initialize]
    returned [True]; a returned provider is the class registered under the
    lower-cased configured name, and it was instantiated and initialized
    once. When [initialize] returns [False] the failed-initialization error
    names that lower-cased provider. *)
Theorem created_provider_was_initialized config
    (initialize : LLMClass → gmap string PyVal → string + bool) :
  (∀ cls, fst (create_llm_provider config initialize) = inr cls →
     initialize cls config = inr true
     ∧ snd (create_llm_provider config initialize)
       = [Instantiated cls; Initialized cls]
     ∧ ∃ name, provider_name config = inr name
               ∧ registry_get name LLM_PROVIDERS = Some cls)
  ∧ (∀ name cls, provider_name config = inr name →
       registry_get name LLM_PROVIDERS = Some cls →
       initialize cls config = inr false →
       create_llm_provider config initialize
       = (inl (ConnectionError ("Failed to initialize LLM provider '" +:+ name +:+ "'")),
          [Instantiated cls; Initialized cls])).
Proof.
  unfold create_llm_provider, create. split.
  - intros cls.
    destruct (provider_name config) as [e|name]; [done|].
    destruct (registry_get name LLM_PROVIDERS) as [c|] eqn:Er; [|done].
    destruct (initialize c config) as [e|[|]] eqn:Ei; simpl; [done| |done].
    intros [= <-]. split; [done|]. split; [done|]. by exists name.
  - intros name cls -> -> ->. reflexivity.
Qed.

Lemma created_provider_was_initialized_witness :
  Scenario.always_ready KoboldProvider
    ({[ "provider" := VStr "KOBOLD" ]} : gmap string PyVal)
  = inr true.
Proof.
  apply (proj1 (created_provider_was_initialized
                  ({[ "provider" := VStr "KOBOLD" ]} : gmap string PyVal)
                  Scenario.always_ready) KoboldProvider).
  reflexivity.
Defined.

End ResolutionMore.
